(** * ncurses_multi_ping: a concurrent ping dashboard

    Shallow embedding of [ncurses_multi_ping.py] and the properties that its
    specification states about it.

    Modelling conventions.
    - A Python [float] is an IEEE-754 binary64 value, represented with the
      axiom-free [spec_float] of the standard library ([prec = 53],
      [emax = 1024]); arithmetic is the correctly rounded arithmetic of
      [SpecFloat].
    - A Python [str] is a [string] whose characters are code points below
      256.  The text handed to the parser is [out], the result of
      [stdout.decode(errors="ignore")]; decoding itself is a library call
      outside the model.
    - Exceptions are values of [exn]; fallible code lives in the [result]
      monad, and [try ... except Exception] is [try_except_Exception].
    - A coroutine is cut at its [await]s: [pc] names the await a task is
      suspended at, [resume] is what the event loop hands back, and
      [worker] runs the task from one await to the next.  *)

From Stdlib Require Import ZArith NArith PArith List Bool Ascii String Lia QArith Qabs.
From Stdlib Require Import Floats.SpecFloat.
From Stdlib Require Import DecimalString.
Import ListNotations.

Open Scope Z_scope.

(** * Binary64 floats *)

Module Float64.

Definition prec : Z := 53.
Definition emax : Z := 1024.

Definition float : Type := spec_float.

Definition add : float -> float -> float := SFadd prec emax.
Definition sub : float -> float -> float := SFsub prec emax.
Definition ltb : float -> float -> bool := SFltb.
Definition leb : float -> float -> bool := SFleb.

(** [of_decimal neg m e] is the binary64 value nearest to
    [(-1)^neg * m * 10^e] (ties to even, overflow to infinity), which is
    what CPython's correctly rounded string-to-double conversion returns. *)
Definition of_decimal (neg : bool) (m : N) (e : Z) : float :=
  match m with
  | N0 => S754_zero neg
  | Npos p =>
      if 0 <=? e
      then binary_round prec emax neg (p * Z.to_pos (10 ^ e)) 0
      else
        let '(q, eq, l) :=
          SFdiv_core_binary prec emax (Zpos p) 0 (10 ^ (- e)) 0 in
        binary_round_aux prec emax neg q eq l
  end.

(** The exact rational value of a finite float. *)
Definition to_Q (x : float) : option Q :=
  match x with
  | S754_zero _ => Some 0%Q
  | S754_finite s m e =>
      let v := if 0 <=? e then inject_Z (Zpos m * 2 ^ e)
               else (Zpos m # Z.to_pos (2 ^ (- e)))%Q in
      Some (if s then Qopp v else v)
  | _ => None
  end.

(** The literals of the program. *)
Definition f0_2 : float := S754_finite false 7205759403792794 (-55).
Definition f1_8 : float := S754_finite false 8106479329266893 (-52).
Definition f2_0 : float := S754_finite false 4503599627370496 (-51).
Definition f2_2 : float := S754_finite false 4953959590107546 (-51).
Definition f17_3 : float := S754_finite false 4869517097094349 (-48).

End Float64.

Abbreviation float := Float64.float.

(** * Python primitives used by the program *)

(** ** Exceptions

    [CancelledError], [KeyboardInterrupt] and [SystemExit] derive from
    [BaseException] only (Python 3.8+, which the script requires); every
    other class derives from [Exception]. *)
Inductive exn : Type :=
| CancelledError
| KeyboardInterrupt
| SystemExit
| TimeoutError
| RuntimeError (msg : string)
| OSError (errno : Z)
| ValueError
| IndexError
| CursesError.

Definition is_Exception (e : exn) : bool :=
  match e with
  | CancelledError | KeyboardInterrupt | SystemExit => false
  | _ => true
  end.

Definition is_TimeoutError (e : exn) : bool :=
  match e with
  | TimeoutError => true
  | _ => false
  end.

Inductive result (A : Type) : Type :=
| Ok (a : A)
| Raise (e : exn).
Arguments Ok {A} a.
Arguments Raise {A} e.

Definition bind {A B : Type} (r : result A) (k : A -> result B) : result B :=
  match r with
  | Ok a => k a
  | Raise e => Raise e
  end.

Notation "x <- r ;; k" := (bind r (fun x => k))
  (at level 61, r at next level, right associativity).

(** [try: body / except Exception: handler] *)
Definition try_except_Exception {A : Type} (body handler : result A) : result A :=
  match body with
  | Ok a => Ok a
  | Raise e => if is_Exception e then handler else Raise e
  end.

(** ** Strings *)

Definition code (c : ascii) : N := N_of_ascii c.

(** [ord(c)] *)
Definition ord (c : ascii) : Z := Z.of_N (code c).

(** [s.startswith(p)] *)
Fixpoint startswith (p s : string) : bool :=
  match p, s with
  | EmptyString, _ => true
  | String a p', String b s' => Ascii.eqb a b && startswith p' s'
  | String _ _, EmptyString => false
  end.

(** [s.find(p)], with [None] for -1 *)
Fixpoint find (p s : string) : option nat :=
  if startswith p s then Some O
  else match s with
       | EmptyString => None
       | String _ s' => option_map S (find p s')
       end.

(** [p in s] *)
Definition contains (p s : string) : bool :=
  match find p s with
  | Some _ => true
  | None => false
  end.

(** [s.index(p)] *)
Definition index (p s : string) : result nat :=
  match find p s with
  | Some i => Ok i
  | None => Raise ValueError
  end.

Fixpoint drop (n : nat) (s : string) : string :=
  match n, s with
  | O, _ => s
  | S n', String _ s' => drop n' s'
  | S _, EmptyString => EmptyString
  end.

Fixpoint take (n : nat) (s : string) : string :=
  match n, s with
  | S n', String c s' => String c (take n' s')
  | _, _ => EmptyString
  end.

(** [s[i:j]] for [0 <= i <= j] *)
Definition slice (s : string) (i j : nat) : string := take (j - i) (drop i s).

(** [c.isspace()] on code points below 256 *)
Definition isspace (c : ascii) : bool :=
  let n := code c in
  (((9 <=? n) && (n <=? 13)) || ((28 <=? n) && (n <=? 32))
   || (n =? 133) || (n =? 160))%N.

Fixpoint split_from (tok s : string) : list string :=
  match s with
  | EmptyString => if String.eqb tok EmptyString then [] else [tok]
  | String c s' =>
      if isspace c
      then if String.eqb tok EmptyString then split_from EmptyString s'
           else tok :: split_from EmptyString s'
      else split_from (tok ++ String c EmptyString) s'
  end.

(** [s.split()] *)
Definition split (s : string) : list string := split_from EmptyString s.

(** [l[i]] for [i >= 0] *)
Definition getitem {A : Type} (l : list A) (i : nat) : result A :=
  match nth_error l i with
  | Some a => Ok a
  | None => Raise IndexError
  end.

(** ** [float(s)] for a [str] argument

    CPython first maps non-ASCII spaces and digits to ASCII, removes the
    underscores that sit between two digits, strips ASCII white space and
    then requires the whole remainder to be a decimal literal, an infinity
    or a NaN.  Conversion is correctly rounded. *)

Definition is_digit (c : ascii) : bool :=
  ((48 <=? code c) && (code c <=? 57))%N.

(** [Py_ISSPACE] *)
Definition c_isspace (c : ascii) : bool :=
  (((9 <=? code c) && (code c <=? 13)) || (code c =? 32))%N.

Fixpoint is_ascii (s : string) : bool :=
  match s with
  | EmptyString => true
  | String c s' => (code c <? 128)%N && is_ascii s'
  end.

(** No code point in 128..255 is a decimal digit, so such a character other
    than a space becomes ["?"] and ends the buffer. *)
Fixpoint transform_chars (s : string) : string :=
  match s with
  | EmptyString => EmptyString
  | String c s' =>
      if (code c <? 127)%N then String c (transform_chars s')
      else if isspace c then String " " (transform_chars s')
      else String "?" EmptyString
  end.

(** [_PyUnicode_TransformDecimalAndSpaceToASCII]: an ASCII string is
    returned as it is. *)
Definition to_ascii_decimal (s : string) : string :=
  if is_ascii s then s else transform_chars s.

Fixpoint drop_underscores (prev : ascii) (s : string) : option string :=
  match s with
  | EmptyString => if Ascii.eqb prev "_" then None else Some EmptyString
  | String c s' =>
      if Ascii.eqb c "_"
      then if is_digit prev then drop_underscores c s' else None
      else if Ascii.eqb prev "_" && negb (is_digit c) then None
           else option_map (String c) (drop_underscores c s')
  end.

Fixpoint lstrip (s : string) : string :=
  match s with
  | String c s' => if c_isspace c then lstrip s' else s
  | EmptyString => EmptyString
  end.

Fixpoint rstrip (s : string) : string :=
  match s with
  | EmptyString => EmptyString
  | String c s' =>
      let r := rstrip s' in
      if String.eqb r EmptyString && c_isspace c then EmptyString
      else String c r
  end.

Fixpoint span_digits (s : string) : string * string :=
  match s with
  | String c s' =>
      if is_digit c
      then let '(d, r) := span_digits s' in (String c d, r)
      else (EmptyString, s)
  | EmptyString => (EmptyString, EmptyString)
  end.

Fixpoint decimal_value (acc : N) (digits : string) : N :=
  match digits with
  | EmptyString => acc
  | String c d => decimal_value (10 * acc + (code c - 48))%N d
  end.

Definition sign_of (s : string) : bool * string :=
  match s with
  | String c r =>
      if Ascii.eqb c "-" then (true, r)
      else if Ascii.eqb c "+" then (false, r)
      else (false, s)
  | EmptyString => (false, s)
  end.

(** The exponent part, which must reach the end of the text. *)
Definition parse_exponent (s : string) : option Z :=
  match s with
  | EmptyString => Some 0
  | String c r =>
      if Ascii.eqb c "e" || Ascii.eqb c "E"
      then let '(neg, r1) := sign_of r in
           let '(d, r2) := span_digits r1 in
           if negb (String.eqb d EmptyString) && String.eqb r2 EmptyString
           then let v := Z.of_N (decimal_value 0 d) in
                Some (if neg then - v else v)
           else None
      else None
  end.

(** [_Py_dg_strtod] on a text it consumes entirely. *)
Definition strtod (s : string) : option float :=
  let '(neg, r) := sign_of s in
  let '(ip, r1) := span_digits r in
  let '(fp, r2) :=
    match r1 with
    | String c r' => if Ascii.eqb c "." then span_digits r' else (EmptyString, r1)
    | EmptyString => (EmptyString, r1)
    end in
  if String.eqb ip EmptyString && String.eqb fp EmptyString then None
  else match parse_exponent r2 with
       | Some e =>
           Some (Float64.of_decimal neg (decimal_value 0 (ip ++ fp))
                   (e - Z.of_nat (String.length fp)))
       | None => None
       end.

Definition lower (c : ascii) : ascii :=
  if ((65 <=? code c) && (code c <=? 90))%N
  then ascii_of_N (code c + 32) else c.

Fixpoint lowercase (s : string) : string :=
  match s with
  | EmptyString => EmptyString
  | String c s' => String (lower c) (lowercase s')
  end.

(** [_Py_parse_inf_or_nan] on a text it consumes entirely. *)
Definition parse_inf_or_nan (s : string) : option float :=
  let '(neg, r) := sign_of s in
  let l := lowercase r in
  if String.eqb l "inf" || String.eqb l "infinity" then Some (S754_infinity neg)
  else if String.eqb l "nan" then Some S754_nan
  else None.

Definition float_of_str (s : string) : result float :=
  match drop_underscores zero (to_ascii_decimal s) with
  | None => Raise ValueError
  | Some u =>
      let t := rstrip (lstrip u) in
      if String.eqb t EmptyString then Raise ValueError
      else match strtod t with
           | Some x => Ok x
           | None =>
               match parse_inf_or_nan t with
               | Some x => Ok x
               | None => Raise ValueError
               end
           end
  end.

(** * The program *)

Definition DEFAULT_INTERVAL : float := Float64.f2_0.
Definition PING_TIMEOUT : Z := 1.

(** [datetime.now()]: microseconds on the wall clock. *)
Definition datetime : Type := Z.

Record HostStatus : Type := mkHostStatus {
  host : string;
  last_result : option bool;   (* True / False / None *)
  last_rtt : option float;
  last_time : option datetime
}.

(** [HostStatus(host)] *)
Definition HostStatus_init (h : string) : HostStatus :=
  {| host := h; last_result := None; last_rtt := None; last_time := None |}.

(** Lines 58-69 of [ping_host]: the verdict read off the decoded output. *)
Definition ping_host_parse (out : string) : result (bool * option float) :=
  if contains "time=" out
  then try_except_Exception
         (i <- index "time=" out ;;
          let idx := (i + 5)%nat in
          let rest := slice out idx (idx + 20)%nat in
          rtt_str <- getitem (split rest) 0 ;;
          rtt <- float_of_str rtt_str ;;
          Ok (true, Some rtt))
         (Ok (true, None))
  else Ok (false, None).

(** ** Shared control state

    [pause_flag], [interval_ref] and [interval_event] are single objects
    that the input handler and every worker hold a reference to; they are
    one record threaded through every step. *)
Record control : Type := mkControl {
  paused : bool;          (* pause_flag['paused'] *)
  val : float;            (* interval_ref['val'] *)
  event_is_set : bool     (* interval_event.is_set() *)
}.

Definition set_paused (b : bool) (c : control) : control :=
  {| paused := b; val := val c; event_is_set := event_is_set c |}.

Definition set_val (v : float) (c : control) : control :=
  {| paused := paused c; val := v; event_is_set := event_is_set c |}.

(** [interval_event.clear()] *)
Definition clear (c : control) : control :=
  {| paused := paused c; val := val c; event_is_set := false |}.

(** ** Worker tasks *)

(** The child process of the probe in progress. *)
Inductive proc_state : Type :=
| Running
| Exited (returncode : Z)
| Killed.

(** Where a worker task is suspended. *)
Inductive pc : Type :=
| Created                                      (* task made, coroutine not yet run *)
| AwaitSpawn                                   (* line 47: create_subprocess_exec *)
| AwaitCommunicate                             (* line 53: wait_for(proc.communicate()) *)
| AwaitEvent (timeout : float) (woken : bool)  (* line 84: wait_for(interval_event.wait()) *)
| Finished (e : exn).                          (* the coroutine raised [e] *)

(** A worker task: the [HostStatus] object it writes (the very object the
    dashboard reads), its program point, the child process it last spawned,
    a pending cancellation request, and a count of [ping_host] calls. *)
Record task : Type := mkTask {
  hs : HostStatus;
  at_pc : pc;
  proc : option proc_state;
  must_cancel : bool;
  pings : nat
}.

Definition set_hs (h : HostStatus) (t : task) : task :=
  {| hs := h; at_pc := at_pc t; proc := proc t;
     must_cancel := must_cancel t; pings := pings t |}.

Definition set_pc (p : pc) (t : task) : task :=
  {| hs := hs t; at_pc := p; proc := proc t;
     must_cancel := must_cancel t; pings := pings t |}.

Definition set_proc (p : proc_state) (t : task) : task :=
  {| hs := hs t; at_pc := at_pc t; proc := Some p;
     must_cancel := must_cancel t; pings := pings t |}.

Definition count_ping (t : task) : task :=
  {| hs := hs t; at_pc := at_pc t; proc := proc t;
     must_cancel := must_cancel t; pings := S (pings t) |}.

(** What the event loop hands to a suspended task. *)
Inductive resume : Type :=
| Run                                              (* first scheduling *)
| Spawned                                          (* the subprocess exists *)
| Communicated (returncode : Z) (out err : string) (* communicate() is back; [out] is stdout decoded *)
| Woken                                            (* interval_event.wait() returned *)
| Throw (e : exn).                                 (* the await raises [e] *)

(** What the outside world answers during one step.  The last two fields
    matter only when a cancellation reaches a task blocked in
    [asyncio.wait_for]: from CPython 3.8.6 to 3.11 [wait_for] does not
    raise [CancelledError] when the future it waits for is already done,
    it returns that future's result; other versions raise. *)
Record env : Type := mkEnv {
  which_ping : option string;        (* shutil.which("ping") *)
  now : datetime;                    (* datetime.now() *)
  wait_for_swallows : bool;          (* wait_for passes a finished result on when cancelled *)
  communicate_done : option resume   (* how communicate() has ended by then, if it has *)
}.

(** Lines 80-82. *)
Definition store (r : bool * option float) (t : datetime) (h : HostStatus)
  : HostStatus :=
  {| host := host h; last_result := Some (fst r); last_rtt := snd r;
     last_time := Some t |}.

(** Lines 83-84: the timeout is read now, and the wait is over at once when
    the event is already set. *)
Definition wait (c : control) (t : task) : task :=
  set_pc (AwaitEvent (val c) (event_is_set c)) t.

(** Lines 76-84, from the moment [ping_host] has returned or raised. *)
Definition after_ping (e : env) (c : control)
  (r : result (bool * option float)) (t : task) : task :=
  match try_except_Exception r (Ok (false, None)) with
  | Ok v => wait c (set_hs (store v (now e) (hs t)) t)
  | Raise ex => set_pc (Finished ex) t
  end.

(** Python truth value of what [shutil.which] returned. *)
Definition found (w : option string) : bool :=
  match w with
  | Some cmd => negb (String.eqb cmd EmptyString)
  | None => false
  end.

(** Lines 43-47 of [ping_host]. *)
Definition ping_host_begin (e : env) (c : control) (t : task) : task :=
  if found (which_ping e)
  then set_pc AwaitSpawn t
  else after_ping e c (Raise (RuntimeError "System 'ping' nicht gefunden")) t.

(** Lines 74-77: the top of [while True]. *)
Definition loop_top (e : env) (c : control) (t : task) : task :=
  if paused c then wait c t
  else ping_host_begin e c (count_ping t).

(** Lines 52-56, resumed with an exception at [wait_for]. *)
Definition communicate_raised (e : env) (c : control) (ex : exn) (t : task)
  : task :=
  if is_TimeoutError ex
  then after_ping e c (Ok (false, None)) (set_proc Killed t)
  else after_ping e c (Raise ex) t.

(** Lines 83-87, resumed with an exception at [wait_for]. *)
Definition wait_raised (e : env) (c : control) (ex : exn) (t : task) : task :=
  if is_TimeoutError ex then loop_top e c t
  else set_pc (Finished ex) t.

(** [worker], run from one suspension to the next.  [None] when the
    resumption does not fit the point the task is suspended at. *)
Definition worker (e : env) (c : control) (r : resume) (t : task)
  : option (task * control) :=
  match at_pc t, r with
  | Created, Run => Some (loop_top e c t, c)
  | Created, Throw CancelledError => Some (set_pc (Finished CancelledError) t, c)
  | AwaitSpawn, Spawned => Some (set_pc AwaitCommunicate (set_proc Running t), c)
  | AwaitSpawn, Throw ex => Some (after_ping e c (Raise ex) t, c)
  | AwaitCommunicate, Communicated rc out err =>
      Some (after_ping e c (ping_host_parse out) (set_proc (Exited rc) t), c)
  | AwaitCommunicate, Throw ex => Some (communicate_raised e c ex t, c)
  | AwaitEvent _ true, Woken => Some (loop_top e (clear c) t, clear c)
  | AwaitEvent _ _, Throw ex => Some (wait_raised e c ex t, c)
  | _, _ => None
  end.

(** [asyncio.create_task(worker(hs, ...))] *)
Definition create_task (h : HostStatus) : task :=
  {| hs := h; at_pc := Created; proc := None; must_cancel := false; pings := O |}.

Definition done (t : task) : bool :=
  match at_pc t with
  | Finished _ => true
  | _ => false
  end.

(** [t.cancel()] *)
Definition cancel (t : task) : task :=
  if done t then t
  else {| hs := hs t; at_pc := at_pc t; proc := proc t;
          must_cancel := true; pings := pings t |}.

(** ** The dashboard and its tasks *)

Record system : Type := mkSystem {
  ctl : control;
  tasks : list task
}.

(** The [hosts] list that the dashboard renders: the objects the tasks own. *)
Definition hosts (s : system) : list HostStatus := map hs (tasks s).

(** A task blocked in [interval_event.wait()] is released by [set()]. *)
Definition release (t : task) : task :=
  match at_pc t with
  | AwaitEvent d _ => set_pc (AwaitEvent d true) t
  | _ => t
  end.

(** [interval_event.set()] *)
Definition set_event (s : system) : system :=
  {| ctl := {| paused := paused (ctl s); val := val (ctl s);
               event_is_set := true |};
     tasks := map release (tasks s) |}.

Definition with_ctl (f : control -> control) (s : system) : system :=
  {| ctl := f (ctl s); tasks := tasks s |}.

(** [max(a, b)]: [b] replaces [a] only when [b > a]. *)
Definition py_max (a b : float) : float :=
  if Float64.ltb a b then b else a.

(** The two interval mutations, lines 158 and 160. *)
Definition decrease (v : float) : float :=
  py_max Float64.f0_2 (Float64.sub v Float64.f0_2).

Definition increase (v : float) : float :=
  Float64.add v Float64.f0_2.

Inductive flow : Type := Continue | Break.

(** Lines 148-160: what one value of [key] does. *)
Definition on_key (key : Z) (s : system) : flow * system :=
  if key =? -1 then (Continue, s)
  else if (key =? ord "q") || (key =? ord "Q") then (Break, s)
  else if (key =? ord "p") || (key =? ord "P")
       then (Continue, with_ctl (fun c => set_paused (negb (paused c)) c) s)
  else if (key =? ord "u") || (key =? ord "U") then (Continue, set_event s)
  else if key =? ord "+"
       then (Continue, with_ctl (fun c => set_val (decrease (val c)) c) s)
  else if key =? ord "-"
       then (Continue, with_ctl (fun c => set_val (increase (val c)) c) s)
  else (Continue, s).

(** Lines 143-146: [getch()] returns a key code, -1 for none, or is
    interrupted. *)
Inductive getch : Type :=
| Key (k : Z)
| Interrupted.

Definition key_of (g : getch) : Z :=
  match g with
  | Key k => k
  | Interrupted => ord "q"
  end.

Fixpoint replace {A : Type} (i : nat) (x : A) (l : list A) : list A :=
  match i, l with
  | O, _ :: l' => x :: l'
  | S i', y :: l' => y :: replace i' x l'
  | _, [] => []
  end.

(** The event loop resumes task [i]. *)
Definition resume_task (s : system) (x : nat * env * resume) : system :=
  let '(i, e, r) := x in
  match nth_error (tasks s) i with
  | Some t =>
      match worker e (ctl s) r t with
      | Some (t', c') => {| ctl := c'; tasks := replace i t' (tasks s) |}
      | None => s
      end
  | None => s
  end.

(** [await asyncio.sleep(0)]: the tasks that are ready run, in turn. *)
Definition sleep0 (ready : list (nat * env * resume)) (s : system) : system :=
  fold_left resume_task ready s.

(** One iteration of the dashboard loop as the outside world drives it:
    a frame is drawn, a key is read and the ready tasks run; or some call of
    the iteration raises. *)
Inductive frame : Type :=
| Frame (g : getch) (ready : list (nat * env * resume))
| Fails (e : exn).

Inductive loop_exit : Type :=
| Quit              (* [break] *)
| Raised (e : exn)  (* an exception left the loop *)
| Alive.            (* the loop is still running *)

(** Lines 104-162. *)
Fixpoint dashboard (fs : list frame) (s : system) : loop_exit * system :=
  match fs with
  | [] => (Alive, s)
  | Fails e :: _ => (Raised e, s)
  | Frame g ready :: fs' =>
      match on_key (key_of g) s with
      | (Break, s') => (Quit, s')
      | (Continue, s') => dashboard fs' (sleep0 ready s')
      end
  end.

(** The cancellation request of a task is used up. *)
Definition uncancel (t : task) : task :=
  {| hs := hs t; at_pc := at_pc t; proc := proc t;
     must_cancel := false; pings := pings t |}.

(** The result that [wait_for] passes on, instead of raising, when a
    cancellation reaches a task whose awaited future is already done: the
    event wait of a released task, or a [communicate] that has ended. *)
Definition finished_wait (e : env) (t : task) : option resume :=
  if wait_for_swallows e
  then match at_pc t with
       | AwaitEvent _ true => Some Woken
       | AwaitCommunicate =>
           match communicate_done e with
           | Some (Communicated rc out err) => Some (Communicated rc out err)
           | Some (Throw CancelledError) => None
           | Some (Throw ex) => Some (Throw ex)
           | _ => None
           end
       | _ => None
       end
  else None.

(** A turn of the event loop while [gather] is awaited: a task with a
    cancellation pending has [CancelledError] thrown at its await, unless
    [wait_for] passes a finished result on; then the task goes on with
    that result and the request is gone. *)
Definition deliver (e : env) (c : control) (t : task) : task * control :=
  if must_cancel t && negb (done t)
  then match finished_wait e t with
       | Some r =>
           match worker e c r t with
           | Some (t', c') => (uncancel t', c')
           | None => (t, c)
           end
       | None =>
           match worker e c (Throw CancelledError) t with
           | Some x => x
           | None => (t, c)
           end
       end
  else (t, c).

Fixpoint loop_turn (e : env) (c : control) (ts : list task)
  : list task * control :=
  match ts with
  | [] => ([], c)
  | t :: ts' =>
      let '(t', c') := deliver e c t in
      let '(ts'', c'') := loop_turn e c' ts' in
      (t' :: ts'', c'')
  end.

(** [await asyncio.gather] over the tasks, exceptions returned: returns once
    every task is done; [None] when [fuel] turns do not get there. *)
Fixpoint gather (fuel : nat) (e : env) (s : system) : option system :=
  if forallb done (tasks s) then Some s
  else match fuel with
       | O => None
       | S fuel' =>
           let '(ts, c) := loop_turn e (ctl s) (tasks s) in
           gather fuel' e {| ctl := c; tasks := ts |}
       end.

(** Lines 163-166: the [finally] block. *)
Definition finally (fuel : nat) (e : env) (s : system) : option system :=
  gather fuel e {| ctl := ctl s; tasks := map cancel (tasks s) |}.

(** Lines 99-101: the event and one task per host. *)
Definition start (hosts : list HostStatus) (pause_flag : bool)
  (interval_ref : float) : system :=
  {| ctl := {| paused := pause_flag; val := interval_ref;
               event_is_set := false |};
     tasks := map create_task hosts |}.

(** [refresher]: [None] when [gather] has not returned within [fuel]. *)
Definition refresher (hosts : list HostStatus) (pause_flag : bool)
  (interval_ref : float) (fs : list frame) (fuel : nat) (e : env)
  : option (loop_exit * system) :=
  match dashboard fs (start hosts pause_flag interval_ref) with
  | (Alive, s) => Some (Alive, s)
  | (x, s) =>
      match finally fuel e s with
      | Some s' => Some (x, s')
      | None => None
      end
  end.

Definition main (host_list : list string) (fs : list frame) (fuel : nat)
  (e : env) : option (loop_exit * system) :=
  refresher (map HostStatus_init host_list) false DEFAULT_INTERVAL fs fuel e.

(** Lines 177-182: the script body. *)
Inductive outcome : Type :=
| Exit (status : Z)
| Ran (r : option (loop_exit * system)).

Definition script (argv : list string) (fs : list frame) (fuel : nat)
  (e : env) : outcome :=
  if (List.length argv <? 2)%nat then Exit 1
  else Ran (main (tl argv) fs fuel e).

(** ** How one call of [ping_host] can be answered *)

Inductive reply : Type :=
| SpawnFails (ex : exn)                        (* create_subprocess_exec raises *)
| Replies (returncode : Z) (out err : string)  (* the process ends in time *)
| TimesOut                                     (* wait_for gives up *)
| CommunicateFails (ex : exn).                 (* communicate raises *)

Definition resumes_of (r : reply) : list resume :=
  match r with
  | SpawnFails ex => [Throw ex]
  | Replies rc out err => [Spawned; Communicated rc out err]
  | TimesOut => [Spawned; Throw TimeoutError]
  | CommunicateFails ex => [Spawned; Throw ex]
  end.

(** A task driven through a list of resumptions. *)
Fixpoint drive (e : env) (rs : list resume) (c : control) (t : task)
  : option (task * control) :=
  match rs with
  | [] => Some (t, c)
  | r :: rs' =>
      match worker e c r t with
      | Some (t', c') => drive e rs' c' t'
      | None => None
      end
  end.

(** The exceptions a failing probe invocation raises are [Exception]s. *)
Definition failure (r : reply) : bool :=
  match r with
  | SpawnFails ex | CommunicateFails ex => is_Exception ex
  | TimesOut => true
  | Replies _ _ _ => false
  end.

(** [n] intervals elapse for a waiting task. *)
Fixpoint elapse (es : list env) (c : control) (t : task)
  : option (task * control) :=
  match es with
  | [] => Some (t, c)
  | e :: es' =>
      match worker e c (Throw TimeoutError) t with
      | Some (t', c') => elapse es' c' t'
      | None => None
      end
  end.

(** The invariant of a host record. *)
Definition rtt_only_when_up (h : HostStatus) : Prop :=
  last_rtt h <> None -> last_result h = Some true.

(** A reply after which [ping_host] returns or raises an [Exception]. *)
Definition completes (r : reply) : bool :=
  match r with
  | SpawnFails ex | CommunicateFails ex => is_Exception ex
  | TimesOut | Replies _ _ _ => true
  end.

(** The same key pressed [n] times in a row. *)
Fixpoint presses (n : nat) (key : Z) (s : system) : system :=
  match n with
  | O => s
  | S n' => presses n' key (snd (on_key key s))
  end.

Definition invariant (s : system) : Prop :=
  Forall (fun t => rtt_only_when_up (hs t)) (tasks s).


(** ** Drawing the table

    The calls [refresher] makes on the window in one iteration, after the
    title line (whose text holds a dash outside the code points a [string]
    has here): lines 109-138. *)

Inductive style : Type :=
| Normal                (* no attribute given *)
| Dim                   (* curses.A_DIM *)
| Bold_pair (n : nat).  (* curses.color_pair(n) | curses.A_BOLD *)

Inductive call : Type :=
| addstr (y x : Z) (text : string) (a : style)
| hline (y x : Z) (ch : ascii) (n : Z).

Fixpoint spaces (n : nat) : string :=
  match n with
  | O => EmptyString
  | S n' => String " " (spaces n')
  end.

(** [s.ljust(n)] and [s.rjust(n)] *)
Definition ljust (n : nat) (s : string) : string :=
  (s ++ spaces (n - String.length s))%string.

Definition rjust (n : nat) (s : string) : string :=
  (spaces (n - String.length s) ++ s)%string.

(** [str(n)] for [n >= 0] *)
Definition decimal (n : Z) : string :=
  NilEmpty.string_of_uint (N.to_uint (Z.to_N n)).

(** [num / den] rounded to the nearest integer, ties to even. *)
Definition round_half_even (num den : Z) : Z :=
  let q := num / den in
  let r := num mod den in
  match 2 * r ?= den with
  | Lt => q
  | Gt => q + 1
  | Eq => if Z.even q then q else q + 1
  end.

(** [f"{x:.1f}"]: the decimal with one fractional digit nearest to the
    exact value of [x], ties to even, with the sign of [x]. *)
Definition format_1f (x : float) : string :=
  match x with
  | S754_nan => "nan"
  | S754_infinity s => if s then "-inf" else "inf"
  | S754_zero s => if s then "-0.0" else "0.0"
  | S754_finite s m e =>
      let n := if 0 <=? e then 10 * Zpos m * 2 ^ e
               else round_half_even (10 * Zpos m) (2 ^ (- e)) in
      ((if s then "-" else "") ++ decimal (n / 10) ++ "." ++ decimal (n mod 10))%string
  end.

Definition two_digits (n : Z) : string :=
  String (ascii_of_N (48 + Z.to_N (n / 10)))
    (String (ascii_of_N (48 + Z.to_N (n mod 10))) EmptyString).

(** [t.strftime('%H:%M:%S')], the wall clock counted from a midnight. *)
Definition strftime_HMS (t : datetime) : string :=
  let secs := t / 1000000 in
  (two_digits ((secs / 3600) mod 24) ++ ":"
   ++ two_digits ((secs / 60) mod 60) ++ ":"
   ++ two_digits (secs mod 60))%string.

(** Lines 119-133: label, colour pair, RTT text and time text of a row. *)
Definition status_label (h : HostStatus) : string :=
  match last_result h with
  | None => "UNKNOWN"
  | Some true => "UP"
  | Some false => "DOWN"
  end.

Definition status_pair (h : HostStatus) : nat :=
  match last_result h with
  | None => 3
  | Some true => 1
  | Some false => 2
  end.

Definition rtt_str (h : HostStatus) : string :=
  match last_result h with
  | Some true =>
      match last_rtt h with
      | Some rtt => format_1f rtt
      | None => "-"
      end
  | _ => "-"
  end.

Definition ts_str (h : HostStatus) : string :=
  match last_result h with
  | None => "-"
  | Some _ =>
      match last_time h with
      | Some t => strftime_HMS t
      | None => "-"
      end
  end.

(** Lines 118-138: the four writes of one row. *)
Definition render_row (y : Z) (h : HostStatus) : list call :=
  [ addstr y 0 (ljust 30 (take 30 (host h))) Normal;
    addstr y 31 (ljust 8 (status_label h)) (Bold_pair (status_pair h));
    addstr y 40 (rjust 8 (rtt_str h)) Normal;
    addstr y 49 (rjust 20 (ts_str h)) Normal ].

(** Lines 114-138: the loop over [enumerate(hosts)], from index [i] on in a
    window of [h] lines. *)
Fixpoint render_rows (h : Z) (i : Z) (hosts : list HostStatus) : list call :=
  match hosts with
  | [] => []
  | hs :: rest =>
      let y := 5 + i in
      if y >=? h - 1 then []
      else render_row y hs ++ render_rows h (i + 1) rest
  end.

(** Line 111: the column titles. *)
Definition column_titles : string :=
  (ljust 30 "Host" ++ " " ++ ljust 8 "Status" ++ " " ++ ljust 8 "RTT(ms)"
   ++ " " ++ ljust 20 "Letztes Update")%string.

(** Lines 109-138 in a window of [h] lines and [w] columns. *)
Definition render_table (h w : Z) (hosts : list HostStatus) : list call :=
  [ addstr 1 0 "Tasten: q=Quit p=Pause u=Update +/-=Intervall" Dim;
    addstr 3 0 column_titles Normal;
    hline 4 0 "-" w ]
  ++ render_rows h 0 hosts.

(** The text a call writes, and its width. *)
Definition width (c : call) : nat :=
  match c with
  | addstr _ _ text _ => String.length text
  | hline _ _ _ n => Z.to_nat n
  end.

(** A host record that has a result exactly when it has a time. *)
Definition stamped (h : HostStatus) : Prop :=
  last_result h = None <-> last_time h = None.

(** The key codes that lines 151-160 test for. *)
Definition bound_keys : list Z :=
  [ord "q"; ord "Q"; ord "p"; ord "P"; ord "u"; ord "U"; ord "+"; ord "-"].

(** [t'] is [t], except that a task waiting for the event may have been
    released: the timeout it waits with is the same. *)
Definition at_most_released (t t' : task) : Prop :=
  hs t' = hs t /\ pings t' = pings t /\ proc t' = proc t
  /\ must_cancel t' = must_cancel t
  /\ (at_pc t' = at_pc t
      \/ exists d w, at_pc t = AwaitEvent d w /\ at_pc t' = AwaitEvent d true).

(** Every character of [s] satisfies [p]. *)
Fixpoint all_chars (p : ascii -> bool) (s : string) : bool :=
  match s with
  | EmptyString => true
  | String c s' => p c && all_chars p s'
  end.

(** The trace with every worker held back: the frames keep their keys and
    no task is resumed. *)
Definition keys_only (fs : list frame) : list frame :=
  map (fun f => match f with
                | Frame g _ => Frame g []
                | Fails e => Fails e
                end) fs.

(** [t'] is [t] after the top of the polling loop has run under [c]: with
    the pause flag set the task only waits again; otherwise it has called
    [ping_host], and the probe is under way or, for want of a [ping], has
    raised and been recorded as Down. *)
Definition probing_step (e : env) (c : control) (t t' : task) : Prop :=
  if paused c
  then at_pc t' = AwaitEvent (val c) (event_is_set c)
       /\ hs t' = hs t /\ pings t' = pings t
  else pings t' = S (pings t)
       /\ if found (which_ping e)
          then at_pc t' = AwaitSpawn /\ hs t' = hs t
          else at_pc t' = AwaitEvent (val c) (event_is_set c)
               /\ hs t' = store (false, None) (now e) (hs t).

(** * Properties *)

(** ** Floats and the parser on sample inputs *)

Example of_decimal_literals :
  Float64.of_decimal false 2 (-1) = Float64.f0_2
  /\ Float64.of_decimal false 18 (-1) = Float64.f1_8
  /\ Float64.of_decimal false 20 (-1) = Float64.f2_0
  /\ Float64.of_decimal false 22 (-1) = Float64.f2_2
  /\ Float64.of_decimal false 173 (-1) = Float64.f17_3.
Proof. vm_compute. repeat split. Qed.

Example of_decimal_range :
  Float64.of_decimal true 1 400 = S754_infinity true
  /\ Float64.of_decimal false 1 (-400) = S754_zero false
  /\ Float64.of_decimal false 5 (-324) = S754_finite false 1 (-1074).
Proof. vm_compute. repeat split. Qed.

(** [f17_3] is a binary64 number and lies within half a unit in the last
    place (2^-49 here) of 17.3. *)
Lemma f17_3_nearest :
  valid_binary Float64.prec Float64.emax Float64.f17_3 = true
  /\ exists q, Float64.to_Q Float64.f17_3 = Some q
               /\ (Qabs (q - (173 # 10)) <= (1 # 562949953421312))%Q.
Proof.
  split; [reflexivity|].
  eexists; split; [reflexivity|].
  vm_compute. discriminate.
Qed.

Example float_of_str_samples :
  float_of_str "17.3" = Ok Float64.f17_3
  /\ float_of_str "abc" = Raise ValueError
  /\ float_of_str "1_000.5e-1" = Ok (S754_finite false 7040392854975283 (-46))
  /\ float_of_str "1__0" = Raise ValueError
  /\ float_of_str "-Infinity" = Ok (S754_infinity true)
  /\ float_of_str "." = Raise ValueError
  /\ float_of_str "1e" = Raise ValueError.
Proof. vm_compute. repeat split. Qed.

Example ping_host_parse_samples :
  ping_host_parse "64 bytes from 10.0.0.1: icmp_seq=1 ttl=64 time=17.3 ms"
  = Ok (true, Some Float64.f17_3)
  /\ ping_host_parse "time=" = Ok (true, None)
  /\ ping_host_parse "1 packets transmitted, 0 received" = Ok (false, None).
Proof. vm_compute. repeat split. Qed.

(** ** String lemmas *)

Lemma drop_app_length (pre s : string) (n : nat) :
  drop (String.length pre + n) (pre ++ s) = drop n s.
Proof.
  induction pre as [|c pre IH]; simpl; [reflexivity | exact IH].
Qed.

Lemma contains_cons_false (p : string) (c : ascii) (s : string) :
  contains p (String c s) = false ->
  startswith p (String c s) = false /\ contains p s = false.
Proof.
  unfold contains. cbn [find].
  destruct (startswith p (String c s)); [discriminate|].
  destruct (find p s); simpl; [discriminate | auto].
Qed.

Ltac split_eqb :=
  repeat match goal with
         | |- context [Ascii.eqb ?a ?b] =>
             first [ is_var b | fail 1 ]; destruct (Ascii.eqb a b); cbn [andb]
         end.

(** The marker has no border: it cannot begin inside [x] and run over into
    a following copy of itself. *)
Lemma marker_no_overlap (x rest : string) :
  x <> EmptyString ->
  startswith "time=" x = false ->
  startswith "time=" (x ++ "time=" ++ rest) = false.
Proof.
  intros Hne H.
  destruct x as [|c1 [|c2 [|c3 [|c4 [|c5 x]]]]];
    [congruence| | | | |]; cbn [startswith String.append] in H |- *;
    revert H; split_eqb; intros H; try reflexivity; try discriminate H;
    exact H.
Qed.

Lemma find_first_marker (pre rest : string) :
  contains "time=" pre = false ->
  find "time=" (pre ++ "time=" ++ rest) = Some (String.length pre).
Proof.
  induction pre as [|c pre IH]; intros H.
  - reflexivity.
  - apply contains_cons_false in H. destruct H as [H1 H2].
    change (String c pre ++ "time=" ++ rest)%string
      with (String c (pre ++ "time=" ++ rest)).
    cbn [find].
    change (String c (pre ++ "time=" ++ rest))
      with (String c pre ++ "time=" ++ rest)%string.
    rewrite marker_no_overlap by (congruence || assumption).
    rewrite (IH H2). reflexivity.
Qed.

Lemma rest_after_marker (pre rest : string) :
  contains "time=" pre = false ->
  index "time=" (pre ++ "time=" ++ rest) = Ok (String.length pre)
  /\ slice (pre ++ "time=" ++ rest) (String.length pre + 5)
       (String.length pre + 5 + 20) = take 20 rest.
Proof.
  intros H. unfold index, slice.
  rewrite (find_first_marker pre rest H). split; [reflexivity|].
  replace (String.length pre + 5 + 20 - (String.length pre + 5))%nat
    with 20%nat by lia.
  rewrite drop_app_length. reflexivity.
Qed.

Lemma contains_marker_app (pre rest : string) :
  contains "time=" pre = false ->
  contains "time=" (pre ++ "time=" ++ rest) = true.
Proof.
  intros H. unfold contains. rewrite (find_first_marker pre rest H).
  reflexivity.
Qed.

(** With the marker present the verdict is Up, whatever follows it. *)
Lemma marker_means_up (out : string) :
  contains "time=" out = true ->
  exists rtt, ping_host_parse out = Ok (true, rtt).
Proof.
  intros H. unfold ping_host_parse. rewrite H.
  match goal with
  | |- exists _, try_except_Exception ?b _ = _ =>
      assert (Hb : (exists v, b = Ok (true, Some v))
                   \/ (exists ex, b = Raise ex /\ is_Exception ex = true))
  end.
  { unfold index, getitem, contains in *.
    destruct (find "time=" out); [|discriminate]. cbn [bind].
    destruct (nth_error _ 0); cbn [bind].
    - unfold float_of_str.
      repeat match goal with
             | |- context [match ?x with _ => _ end] => destruct x; cbn [bind]
             end; eauto.
    - eauto. }
  destruct Hb as [[v Hb] | [ex [Hb Hex]]]; rewrite Hb; cbn;
    [|rewrite Hex]; eauto.
Qed.

Lemma parse_at_marker (pre rest tok : string) (l : list string) :
  contains "time=" pre = false ->
  split (take 20 rest) = tok :: l ->
  ping_host_parse (pre ++ "time=" ++ rest)
  = try_except_Exception (rtt <- float_of_str tok ;; Ok (true, Some rtt))
      (Ok (true, None)).
Proof.
  intros H Hl. unfold ping_host_parse.
  rewrite (contains_marker_app _ _ H).
  destruct (rest_after_marker pre rest H) as [Hi Hs].
  rewrite Hi. cbn [bind]. rewrite Hs, Hl. reflexivity.
Qed.

Lemma first_token_17_3 (post : string) :
  exists l, split (take 20 ("17.3 ms" ++ post)) = "17.3"%string :: l.
Proof.
  cbn [take String.append]. unfold split. eexists. cbv -[take]. reflexivity.
Qed.

Lemma first_token_abc (post : string) :
  exists l, split (take 20 ("abc ms" ++ post)) = "abc"%string :: l.
Proof.
  cbn [take String.append]. unfold split. eexists. cbv -[take]. reflexivity.
Qed.

(** ** The output parser (C3) *)

(** C3.  For any output in which the first [time=] marker is the one of
    [time=17.3 ms], the parser returns Up with RTT 17.3 (the binary64
    number nearest to it); for an output without the marker it returns
    Down; and for an output whose first marker is that of [time=abc ms] it
    returns Up with no RTT, not Down. *)
Theorem ping_host_parse_examples (pre post : string) :
  contains "time=" pre = false ->
  ping_host_parse (pre ++ "time=17.3 ms" ++ post)
  = Ok (true, Some Float64.f17_3)
  /\ ping_host_parse pre = Ok (false, None)
  /\ ping_host_parse (pre ++ "time=abc ms" ++ post) = Ok (true, None).
Proof.
  intros H. repeat split.
  - destruct (first_token_17_3 post) as [l Hl].
    change (pre ++ "time=17.3 ms" ++ post)%string
      with (pre ++ "time=" ++ ("17.3 ms" ++ post))%string.
    rewrite (parse_at_marker _ _ _ _ H Hl). vm_compute. reflexivity.
  - unfold ping_host_parse. rewrite H. reflexivity.
  - destruct (first_token_abc post) as [l Hl].
    change (pre ++ "time=abc ms" ++ post)%string
      with (pre ++ "time=" ++ ("abc ms" ++ post))%string.
    rewrite (parse_at_marker _ _ _ _ H Hl). vm_compute. reflexivity.
Qed.

Lemma ping_host_parse_examples_witness :
  contains "time=" "64 bytes from 10.0.0.1: icmp_seq=1 ttl=64 " = false
  /\ ping_host_parse
       ("64 bytes from 10.0.0.1: icmp_seq=1 ttl=64 " ++ "time=17.3 ms" ++ "")
     = Ok (true, Some Float64.f17_3).
Proof.
  split; [reflexivity|].
  apply (ping_host_parse_examples
           "64 bytes from 10.0.0.1: icmp_seq=1 ttl=64 " "").
  reflexivity.
Defined.

(** ** The poll interval (C4) *)

Lemma ltb_leb (x y : float) : Float64.ltb x y = true -> Float64.leb x y = true.
Proof.
  unfold Float64.ltb, Float64.leb, SFltb, SFleb.
  destruct (SFcompare x y) as [[| |]|]; intros H; congruence.
Qed.

Lemma decrease_floor (v : float) :
  Float64.leb Float64.f0_2 (decrease v) = true.
Proof.
  unfold decrease, py_max.
  destruct (Float64.ltb Float64.f0_2 (Float64.sub v Float64.f0_2)) eqn:E.
  - apply ltb_leb, E.
  - reflexivity.
Qed.

Lemma on_key_plus (s : system) :
  on_key (ord "+") s
  = (Continue, with_ctl (fun c => set_val (decrease (val c)) c) s).
Proof. reflexivity. Qed.

Lemma on_key_minus (s : system) :
  on_key (ord "-") s
  = (Continue, with_ctl (fun c => set_val (increase (val c)) c) s).
Proof. reflexivity. Qed.

(** C4.  The [+] key sets the interval to [val - 0.2] when that exceeds 0.2
    and to 0.2 otherwise; from the default 2.0 one such step gives 1.8, and
    after any number of them the interval is at least 0.2.  The [-] key
    sets the interval to [val + 0.2], with no upper clamp; from 2.0 that
    is 2.2. *)
Theorem interval_adjustment :
  (forall s,
      val (ctl (snd (on_key (ord "+") s)))
      = if Float64.ltb Float64.f0_2 (Float64.sub (val (ctl s)) Float64.f0_2)
        then Float64.sub (val (ctl s)) Float64.f0_2
        else Float64.f0_2)
  /\ (forall hosts,
        val (ctl (presses 1 (ord "+") (start hosts false DEFAULT_INTERVAL)))
        = Float64.f1_8)
  /\ (forall n hosts,
        Float64.leb Float64.f0_2
          (val (ctl (presses n (ord "+") (start hosts false DEFAULT_INTERVAL))))
        = true)
  /\ (forall s,
        val (ctl (snd (on_key (ord "-") s)))
        = Float64.add (val (ctl s)) Float64.f0_2)
  /\ (forall hosts,
        val (ctl (presses 1 (ord "-") (start hosts false DEFAULT_INTERVAL)))
        = Float64.f2_2).
Proof.
  split; [|split; [|split; [|split]]].
  - intros s. rewrite on_key_plus. reflexivity.
  - intros hosts. cbn [presses]. rewrite on_key_plus. vm_compute. reflexivity.
  - intros n hosts.
    assert (G : forall s, Float64.leb Float64.f0_2 (val (ctl s)) = true ->
                          Float64.leb Float64.f0_2
                            (val (ctl (presses n (ord "+") s))) = true).
    { induction n as [|n IH]; intros s Hs; [exact Hs|].
      cbn [presses]. apply IH. rewrite on_key_plus. apply decrease_floor. }
    apply G. reflexivity.
  - intros s. rewrite on_key_minus. reflexivity.
  - intros hosts. cbn [presses]. rewrite on_key_minus. vm_compute. reflexivity.
Qed.

(** ** One step of a worker *)

Section WorkerSteps.

Variables (e : env) (c : control).

Lemma parse_total (out : string) :
  exists rtt, ping_host_parse out = Ok (contains "time=" out, rtt)
              /\ (contains "time=" out = false -> rtt = None).
Proof.
  destruct (contains "time=" out) eqn:E.
  - destruct (marker_means_up out E) as [rtt H]. exists rtt.
    split; [exact H | discriminate].
  - exists None. unfold ping_host_parse. rewrite E. split; reflexivity.
Qed.

Lemma after_ping_Ok (v : bool * option float) (t : task) :
  after_ping e c (Ok v) t = wait c (set_hs (store v (now e) (hs t)) t).
Proof. reflexivity. Qed.

Lemma after_ping_Exception (ex : exn) (t : task) :
  is_Exception ex = true ->
  after_ping e c (Raise ex) t
  = wait c (set_hs (store (false, None) (now e) (hs t)) t).
Proof. intros H. unfold after_ping. cbn. rewrite H. reflexivity. Qed.

Lemma after_ping_BaseException (ex : exn) (t : task) :
  is_Exception ex = false ->
  after_ping e c (Raise ex) t = set_pc (Finished ex) t.
Proof. intros H. unfold after_ping. cbn. rewrite H. reflexivity. Qed.

(** A missing [ping] makes [ping_host] raise, and the worker records Down. *)
Lemma no_ping_recorded_down (t : task) :
  found (which_ping e) = false ->
  paused c = false ->
  loop_top e c t
  = wait c (set_hs (store (false, None) (now e) (hs t)) (count_ping t)).
Proof.
  intros Hw Hp. unfold loop_top, ping_host_begin. rewrite Hp, Hw.
  rewrite after_ping_Exception by reflexivity. reflexivity.
Qed.

Lemma ping_begins (t : task) :
  found (which_ping e) = true ->
  paused c = false ->
  loop_top e c t = set_pc AwaitSpawn (count_ping t).
Proof.
  intros Hw Hp. unfold loop_top, ping_host_begin. rewrite Hp, Hw. reflexivity.
Qed.

Lemma paused_skips (t : task) :
  paused c = true -> loop_top e c t = wait c t.
Proof. intros Hp. unfold loop_top. rewrite Hp. reflexivity. Qed.

Lemma worker_spawned (t : task) :
  at_pc t = AwaitSpawn ->
  worker e c Spawned t = Some (set_pc AwaitCommunicate (set_proc Running t), c).
Proof. intros H. unfold worker. rewrite H. reflexivity. Qed.

Lemma worker_spawn_raised (ex : exn) (t : task) :
  at_pc t = AwaitSpawn ->
  worker e c (Throw ex) t = Some (after_ping e c (Raise ex) t, c).
Proof. intros H. unfold worker. rewrite H. reflexivity. Qed.

Lemma worker_communicated (rc : Z) (out err : string)
  (t : task) :
  at_pc t = AwaitCommunicate ->
  worker e c (Communicated rc out err) t
  = Some (after_ping e c (ping_host_parse out) (set_proc (Exited rc) t), c).
Proof. intros H. unfold worker. rewrite H. reflexivity. Qed.

Lemma worker_communicate_raised (ex : exn) (t : task) :
  at_pc t = AwaitCommunicate ->
  worker e c (Throw ex) t = Some (communicate_raised e c ex t, c).
Proof. intros H. unfold worker. rewrite H. reflexivity. Qed.

Lemma worker_woken (d : float) (t : task) :
  at_pc t = AwaitEvent d true ->
  worker e c Woken t = Some (loop_top e (clear c) t, clear c).
Proof. intros H. unfold worker. rewrite H. reflexivity. Qed.

Lemma worker_wait_raised (d : float) (w : bool)
  (ex : exn) (t : task) :
  at_pc t = AwaitEvent d w ->
  worker e c (Throw ex) t = Some (wait_raised e c ex t, c).
Proof. intros H. unfold worker. rewrite H. destruct w; reflexivity. Qed.

End WorkerSteps.

(** ** Probe failures (C6) *)

(** C6.  A probe invocation that fails - [create_subprocess_exec] or
    [communicate] raising an [Exception], or the time bound expiring, in
    which case the child process is killed - ends with Down and no RTT
    written to the host record, and the task suspended in its next wait:
    it has not finished.  The same holds when [ping_host] raises because
    no [ping] executable is found. *)
Theorem probe_failure_recorded_down (e : env) (c : control) (t : task) :
  (forall r,
      at_pc t = AwaitSpawn -> failure r = true ->
      exists t',
        drive e (resumes_of r) c t = Some (t', c)
        /\ hs t' = store (false, None) (now e) (hs t)
        /\ at_pc t' = AwaitEvent (val c) (event_is_set c)
        /\ done t' = false
        /\ (r = TimesOut -> proc t' = Some Killed))
  /\ (found (which_ping e) = false -> paused c = false ->
      hs (loop_top e c t) = store (false, None) (now e) (hs t)
      /\ at_pc (loop_top e c t) = AwaitEvent (val c) (event_is_set c)
      /\ done (loop_top e c t) = false).
Proof.
  split.
  - intros r Hpc Hf.
    destruct r as [ex | rc out err | | ex]; cbn in Hf; try discriminate;
      cbn [resumes_of drive].
    + rewrite (worker_spawn_raised _ _ _ _ Hpc), (after_ping_Exception _ _ _ _ Hf).
      eexists; repeat split; discriminate.
    + rewrite (worker_spawned _ _ _ Hpc).
      rewrite worker_communicate_raised by reflexivity.
      eexists; repeat split.
    + rewrite (worker_spawned _ _ _ Hpc).
      rewrite worker_communicate_raised by reflexivity.
      unfold communicate_raised.
      destruct (is_TimeoutError ex);
        [rewrite after_ping_Ok | rewrite (after_ping_Exception _ _ _ _ Hf)];
        eexists; repeat split; discriminate.
  - intros Hw Hp. rewrite (no_ping_recorded_down _ _ _ Hw Hp). repeat split.
Qed.

Lemma probe_failure_recorded_down_witness :
  exists t',
    drive {| which_ping := Some "/bin/ping"%string; now := 7;
             wait_for_swallows := false; communicate_done := None |}
      (resumes_of TimesOut)
      {| paused := false; val := DEFAULT_INTERVAL; event_is_set := false |}
      (set_pc AwaitSpawn (create_task (HostStatus_init "10.0.0.2")))
    = Some (t', {| paused := false; val := DEFAULT_INTERVAL;
                   event_is_set := false |})
    /\ last_result (hs t') = Some false
    /\ proc t' = Some Killed.
Proof.
  destruct (probe_failure_recorded_down
              {| which_ping := Some "/bin/ping"%string; now := 7;
                 wait_for_swallows := false; communicate_done := None |}
              {| paused := false; val := DEFAULT_INTERVAL;
                 event_is_set := false |}
              (set_pc AwaitSpawn (create_task (HostStatus_init "10.0.0.2"))))
    as [H _].
  destruct (H TimesOut eq_refl eq_refl) as [t' [H1 [H2 [_ [_ H3]]]]].
  exists t'. split; [exact H1|]. split; [rewrite H2; reflexivity|].
  exact (H3 eq_refl).
Defined.

(** ** Waking up (C7) *)

Lemma loop_top_probing_step (e : env) (c : control) (t : task) :
  probing_step e c t (loop_top e c t).
Proof.
  unfold probing_step. destruct (paused c) eqn:Hp.
  - rewrite (paused_skips _ _ _ Hp). repeat split.
  - destruct (found (which_ping e)) eqn:Hw.
    + rewrite (ping_begins _ _ _ Hw Hp). repeat split.
    + rewrite (no_ping_recorded_down _ _ _ Hw Hp). repeat split.
Qed.

(** C7.  A task woken from its wait by the event clears the event and
    leaves pause flag and interval alone; a task whose wait times out
    leaves the whole control state as it is.  Either way the task is back
    at its probing step: with the pause flag clear it calls [ping_host] -
    one more probe is counted, and it is under way or recorded as Down for
    want of a [ping] - and with the flag set it waits again. *)
Theorem wake_consumes_signal (e : env) (c : control) (t : task) (d : float)
  (w : bool) :
  at_pc t = AwaitEvent d w ->
  (w = true ->
   exists t',
     worker e c Woken t = Some (t', clear c)
     /\ event_is_set (clear c) = false
     /\ paused (clear c) = paused c /\ val (clear c) = val c
     /\ probing_step e (clear c) t t')
  /\ (exists t',
        worker e c (Throw TimeoutError) t = Some (t', c)
        /\ probing_step e c t t').
Proof.
  intros Hpc. split.
  - intros ->. rewrite (worker_woken _ _ _ _ Hpc). eexists.
    split; [reflexivity|]. repeat split. apply loop_top_probing_step.
  - rewrite (worker_wait_raised _ _ _ _ _ _ Hpc). eexists.
    split; [reflexivity|]. apply loop_top_probing_step.
Qed.

Lemma wake_consumes_signal_witness :
  exists t',
    worker {| which_ping := Some "/bin/ping"%string; now := 3;
              wait_for_swallows := false; communicate_done := None |}
      {| paused := false; val := DEFAULT_INTERVAL; event_is_set := true |}
      Woken
      (set_pc (AwaitEvent DEFAULT_INTERVAL true)
         (create_task (HostStatus_init "10.0.0.1")))
    = Some (t', {| paused := false; val := DEFAULT_INTERVAL;
                   event_is_set := false |})
    /\ at_pc t' = AwaitSpawn /\ pings t' = 1%nat.
Proof.
  destruct (wake_consumes_signal
              {| which_ping := Some "/bin/ping"%string; now := 3;
                 wait_for_swallows := false; communicate_done := None |}
              {| paused := false; val := DEFAULT_INTERVAL; event_is_set := true |}
              (set_pc (AwaitEvent DEFAULT_INTERVAL true)
                 (create_task (HostStatus_init "10.0.0.1")))
              DEFAULT_INTERVAL true eq_refl) as [H _].
  destruct (H eq_refl) as [t' [H1 [_ [_ [_ H2]]]]].
  exists t'. split; [exact H1|].
  unfold probing_step in H2. cbn in H2. destruct H2 as [H3 [H4 _]].
  split; [exact H4 | exact H3].
Defined.

(** ** Pause (C5) *)

Lemma elapse_paused (es : list env) (c : control) (t : task) (d : float)
  (w : bool) :
  paused c = true ->
  at_pc t = AwaitEvent d w ->
  exists d' w',
    elapse es c t = Some (set_pc (AwaitEvent d' w') t, c).
Proof.
  intros Hp. revert t d w.
  induction es as [|e es IH]; intros t d w Hpc.
  - exists d, w. cbn. destruct t; cbn in *; subst; reflexivity.
  - cbn [elapse]. rewrite (worker_wait_raised _ _ _ _ _ _ Hpc).
    cbn [wait_raised is_TimeoutError]. rewrite (paused_skips _ _ _ Hp).
    destruct (IH (wait c t) (val c) (event_is_set c) eq_refl) as [d' [w' H]].
    exists d', w'. rewrite H. reflexivity.
Qed.

(** C5.  While the pause flag is set, a waiting task that sees any number
    of intervals elapse starts no probe and leaves its host record, its
    probe count and its child process untouched.  The pause key flips the
    flag; with the flag clear, the next wake-up of the task calls
    [ping_host], and when that call finishes - by a reply, a failure or a
    timeout - the host record is written with a result and the current
    time. *)
Theorem pause_skips_probing (c : control) (t : task) (d : float) (w : bool) :
  at_pc t = AwaitEvent d w ->
  (paused c = true ->
   forall es, exists t',
     elapse es c t = Some (t', c)
     /\ hs t' = hs t /\ pings t' = pings t /\ proc t' = proc t
     /\ exists d' w', at_pc t' = AwaitEvent d' w')
  /\ (forall s, paused (ctl (snd (on_key (ord "p") s))) = negb (paused (ctl s))
                /\ tasks (snd (on_key (ord "p") s)) = tasks s)
  /\ (paused c = false ->
      forall e e' r, completes r = true ->
      exists t1,
        worker e c (Throw TimeoutError) t = Some (t1, c)
        /\ pings t1 = S (pings t)
        /\ exists t2 up,
            (if found (which_ping e)
             then drive e' (resumes_of r) c t1 = Some (t2, c)
                  /\ last_time (hs t2) = Some (now e')
             else t2 = t1 /\ last_time (hs t2) = Some (now e))
            /\ last_result (hs t2) = Some up
            /\ at_pc t2 = AwaitEvent (val c) (event_is_set c)).
Proof.
  intros Hpc. split; [|split].
  - intros Hp es.
    destruct (elapse_paused es c t d w Hp Hpc) as [d' [w' H]].
    eexists. split; [exact H|]. repeat split. exists d', w'. reflexivity.
  - intros s. split; reflexivity.
  - intros Hp e e' r Hr.
    rewrite (worker_wait_raised _ _ _ _ _ _ Hpc).
    cbn [wait_raised is_TimeoutError].
    destruct (found (which_ping e)) eqn:Hw.
    + rewrite (ping_begins _ _ _ Hw Hp).
      eexists. split; [reflexivity|]. split; [reflexivity|].
      destruct r as [ex | rc out err | | ex]; cbn in Hr;
        cbn [resumes_of drive].
      * rewrite worker_spawn_raised by reflexivity.
        rewrite (after_ping_Exception _ _ _ _ Hr).
        eexists; eexists; repeat split.
      * rewrite worker_spawned by reflexivity.
        rewrite worker_communicated by reflexivity.
        destruct (parse_total out) as [rtt [H _]]. rewrite H.
        eexists; eexists; repeat split.
      * rewrite worker_spawned by reflexivity.
        rewrite worker_communicate_raised by reflexivity.
        eexists; eexists; repeat split.
      * rewrite worker_spawned by reflexivity.
        rewrite worker_communicate_raised by reflexivity.
        unfold communicate_raised.
        destruct (is_TimeoutError ex);
          [rewrite after_ping_Ok | rewrite (after_ping_Exception _ _ _ _ Hr)];
          eexists; eexists; repeat split.
    + rewrite (no_ping_recorded_down _ _ _ Hw Hp).
      eexists. split; [reflexivity|]. split; [reflexivity|].
      eexists; eexists; repeat split.
Qed.

Lemma pause_skips_probing_witness :
  exists t',
    elapse [ {| which_ping := Some "/bin/ping"%string; now := 10;
                wait_for_swallows := false; communicate_done := None |};
             {| which_ping := Some "/bin/ping"%string; now := 12;
                wait_for_swallows := false; communicate_done := None |};
             {| which_ping := Some "/bin/ping"%string; now := 14;
                wait_for_swallows := false; communicate_done := None |} ]
      {| paused := true; val := DEFAULT_INTERVAL; event_is_set := false |}
      (set_pc (AwaitEvent DEFAULT_INTERVAL false)
         (create_task (HostStatus_init "10.0.0.1")))
    = Some (t', {| paused := true; val := DEFAULT_INTERVAL;
                   event_is_set := false |})
    /\ hs t' = HostStatus_init "10.0.0.1" /\ pings t' = O.
Proof.
  destruct (pause_skips_probing
              {| paused := true; val := DEFAULT_INTERVAL; event_is_set := false |}
              (set_pc (AwaitEvent DEFAULT_INTERVAL false)
                 (create_task (HostStatus_init "10.0.0.1")))
              DEFAULT_INTERVAL false eq_refl) as [H _].
  destruct (H eq_refl
              [ {| which_ping := Some "/bin/ping"%string; now := 10;
                   wait_for_swallows := false; communicate_done := None |};
                {| which_ping := Some "/bin/ping"%string; now := 12;
                   wait_for_swallows := false; communicate_done := None |};
                {| which_ping := Some "/bin/ping"%string; now := 14;
                   wait_for_swallows := false; communicate_done := None |} ])
    as [t' [H1 [H2 [H3 _]]]].
  exists t'. split; [exact H1|]. split; [exact H2 | exact H3].
Defined.

(** ** Lists of tasks *)

Lemma nth_error_replace {A : Type} (l : list A) (i : nat) (x y : A) :
  nth_error l i = Some x -> nth_error (replace i y l) i = Some y.
Proof.
  revert i. induction l as [|a l IH]; intros [|i] H; cbn in *;
    try discriminate; [reflexivity | apply IH, H].
Qed.

Lemma nth_error_replace_other {A : Type} (l : list A) (i j : nat) (y : A) :
  i <> j -> nth_error (replace i y l) j = nth_error l j.
Proof.
  revert i j. induction l as [|a l IH]; intros [|i] [|j] H; cbn;
    try reflexivity; [congruence | apply IH; congruence].
Qed.

Lemma map_replace {A B : Type} (f : A -> B) (l : list A) (i : nat) (x y : A) :
  nth_error l i = Some x -> f y = f x ->
  map f (replace i y l) = map f l.
Proof.
  revert i. induction l as [|a l IH]; intros [|i] H Hf; cbn in *;
    try discriminate.
  - inversion H; subst. rewrite Hf. reflexivity.
  - rewrite (IH i H Hf). reflexivity.
Qed.


Lemma hs_release (t : task) : hs (release t) = hs t.
Proof. unfold release. destruct (at_pc t); reflexivity. Qed.

Lemma on_key_update (s : system) : on_key (ord "u") s = (Continue, set_event s).
Proof. reflexivity. Qed.

(** ** An update requested during pause (C10) *)

(** C10.  With the pause flag set and a task waiting, the update key sets
    the event and releases the task whatever its timeout; the task, once
    resumed, clears the event and goes back to waiting without calling
    [ping_host]: its host record, probe count and child process are as
    before, and so is every host record the dashboard shows. *)
Theorem update_during_pause_discarded (s : system) (i : nat) (t : task)
  (d : float) (w : bool) (e : env) :
  paused (ctl s) = true ->
  nth_error (tasks s) i = Some t ->
  at_pc t = AwaitEvent d w ->
  let s1 := snd (on_key (ord "u") s) in
  let s2 := resume_task s1 (i, e, Woken) in
  event_is_set (ctl s1) = true
  /\ nth_error (tasks s1) i = Some (set_pc (AwaitEvent d true) t)
  /\ event_is_set (ctl s2) = false
  /\ (exists t2,
        nth_error (tasks s2) i = Some t2
        /\ at_pc t2 = AwaitEvent (val (ctl s)) false
        /\ hs t2 = hs t /\ pings t2 = pings t /\ proc t2 = proc t)
  /\ hosts s2 = hosts s.
Proof.
  intros Hp Hn Hpc s1 s2.
  assert (H1 : nth_error (tasks s1) i = Some (set_pc (AwaitEvent d true) t)).
  { subst s1. rewrite on_key_update. cbn [snd set_event tasks].
    rewrite (map_nth_error release i (tasks s) Hn).
    unfold release. rewrite Hpc. reflexivity. }
  assert (H2 : s2 = {| ctl := clear (ctl s1);
                       tasks := replace i
                                  (set_pc (AwaitEvent (val (ctl s)) false) t)
                                  (tasks s1) |}).
  { subst s2. unfold resume_task. rewrite H1.
    rewrite (worker_woken _ _ d) by reflexivity.
    rewrite paused_skips by (subst s1; exact Hp). reflexivity. }
  split; [reflexivity|]. split; [exact H1|].
  rewrite H2. cbn [ctl tasks]. split; [reflexivity|]. split.
  - eexists. split; [apply (nth_error_replace _ _ _ _ H1)|]. repeat split.
  - unfold hosts. cbn [tasks].
    rewrite (map_replace hs _ _ _ _ H1) by reflexivity.
    subst s1. rewrite on_key_update. cbn [snd set_event tasks].
    rewrite map_map. apply map_ext. intros a. apply hs_release.
Qed.

Lemma update_during_pause_discarded_witness :
  let s := {| ctl := {| paused := true; val := DEFAULT_INTERVAL;
                        event_is_set := false |};
              tasks := [set_pc (AwaitEvent DEFAULT_INTERVAL false)
                          (create_task (HostStatus_init "10.0.0.1"))] |} in
  let s2 := resume_task (snd (on_key (ord "u") s))
              (O, {| which_ping := Some "/bin/ping"%string; now := 5;
                     wait_for_swallows := false; communicate_done := None |}, Woken) in
  event_is_set (ctl s2) = false /\ hosts s2 = hosts s.
Proof.
  intros s s2.
  destruct (update_during_pause_discarded s O
              (set_pc (AwaitEvent DEFAULT_INTERVAL false)
                 (create_task (HostStatus_init "10.0.0.1")))
              DEFAULT_INTERVAL false
              {| which_ping := Some "/bin/ping"%string; now := 5;
                 wait_for_swallows := false; communicate_done := None |}
              eq_refl eq_refl eq_refl) as [_ [_ [H3 [_ H5]]]].
  split; [exact H3 | exact H5].
Defined.

(** ** Up or Down is read off the output alone (C9) *)

(** C9.  When [communicate] returns, the result written to the host record
    is Up exactly when the decoded standard output contains [time=]; the
    return code and the standard error text have no influence on the host
    record.  So a non-zero return code with the marker gives Up and a zero
    return code without it gives Down. *)
Theorem verdict_ignores_exit_status (e : env) (c : control) (t : task)
  (out : string) :
  at_pc t = AwaitCommunicate ->
  (forall rc err, exists t',
      worker e c (Communicated rc out err) t = Some (t', c)
      /\ last_result (hs t') = Some (contains "time=" out)
      /\ proc t' = Some (Exited rc))
  /\ (forall rc rc' err err' t1 t2 c1 c2,
         worker e c (Communicated rc out err) t = Some (t1, c1) ->
         worker e c (Communicated rc' out err') t = Some (t2, c2) ->
         hs t1 = hs t2).
Proof.
  intros Hpc. split.
  - intros rc err. rewrite (worker_communicated _ _ _ _ _ _ Hpc).
    destruct (parse_total out) as [rtt [H _]]. rewrite H, after_ping_Ok.
    eexists. repeat split.
  - intros rc rc' err err' t1 t2 c1 c2.
    rewrite !(worker_communicated _ _ _ _ _ _ Hpc).
    destruct (parse_total out) as [rtt [H _]]. rewrite H, !after_ping_Ok.
    intros H1 H2. inversion H1; inversion H2; subst. reflexivity.
Qed.

Lemma verdict_ignores_exit_status_witness :
  (exists t',
      worker {| which_ping := Some "/bin/ping"%string; now := 9;
                wait_for_swallows := false; communicate_done := None |}
        {| paused := false; val := DEFAULT_INTERVAL; event_is_set := false |}
        (Communicated 1 "rtt time=4.2 ms" "")
        (set_pc AwaitCommunicate (create_task (HostStatus_init "h")))
      = Some (t', {| paused := false; val := DEFAULT_INTERVAL;
                     event_is_set := false |})
      /\ last_result (hs t') = Some true)
  /\ (exists t',
      worker {| which_ping := Some "/bin/ping"%string; now := 9;
                wait_for_swallows := false; communicate_done := None |}
        {| paused := false; val := DEFAULT_INTERVAL; event_is_set := false |}
        (Communicated 0 "1 packets transmitted, 0 received" "")
        (set_pc AwaitCommunicate (create_task (HostStatus_init "h")))
      = Some (t', {| paused := false; val := DEFAULT_INTERVAL;
                     event_is_set := false |})
      /\ last_result (hs t') = Some false).
Proof.
  split.
  - destruct (verdict_ignores_exit_status
                {| which_ping := Some "/bin/ping"%string; now := 9;
                   wait_for_swallows := false; communicate_done := None |}
                {| paused := false; val := DEFAULT_INTERVAL;
                   event_is_set := false |}
                (set_pc AwaitCommunicate (create_task (HostStatus_init "h")))
                "rtt time=4.2 ms" eq_refl) as [H _].
    destruct (H 1 ""%string) as [t' [H1 [H2 _]]].
    exists t'. split; [exact H1 | exact H2].
  - destruct (verdict_ignores_exit_status
                {| which_ping := Some "/bin/ping"%string; now := 9;
                   wait_for_swallows := false; communicate_done := None |}
                {| paused := false; val := DEFAULT_INTERVAL;
                   event_is_set := false |}
                (set_pc AwaitCommunicate (create_task (HostStatus_init "h")))
                "1 packets transmitted, 0 received" eq_refl) as [H _].
    destruct (H 0 ""%string) as [t' [H1 [H2 _]]].
    exists t'. split; [exact H1 | exact H2].
Defined.

(** ** The RTT is present only with Up (C2) *)

Lemma store_inv (v : bool * option float) (n : datetime) (h : HostStatus) :
  (snd v <> None -> fst v = true) -> rtt_only_when_up (store v n h).
Proof. intros H Hr. cbn in *. rewrite (H Hr). reflexivity. Qed.

Lemma after_ping_inv (e : env) (c : control)
  (r : result (bool * option float)) (t : task) :
  (forall v, r = Ok v -> snd v <> None -> fst v = true) ->
  rtt_only_when_up (hs t) ->
  rtt_only_when_up (hs (after_ping e c r t)).
Proof.
  intros Hr Ht. destruct r as [v | ex].
  - rewrite after_ping_Ok. apply store_inv, (Hr v eq_refl).
  - destruct (is_Exception ex) eqn:E.
    + rewrite (after_ping_Exception _ _ _ _ E). apply store_inv.
      intros H. elim H. reflexivity.
    + rewrite (after_ping_BaseException _ _ _ _ E). exact Ht.
Qed.

Lemma parse_inv (out : string) (v : bool * option float) :
  ping_host_parse out = Ok v -> snd v <> None -> fst v = true.
Proof.
  destruct (parse_total out) as [rtt [H Hn]]. rewrite H.
  intros E Hs. inversion E; subst. cbn in *.
  destruct (contains "time=" out); [reflexivity|].
  elim Hs. apply Hn. reflexivity.
Qed.

Lemma loop_top_inv (e : env) (c : control) (t : task) :
  rtt_only_when_up (hs t) -> rtt_only_when_up (hs (loop_top e c t)).
Proof.
  intros Ht. unfold loop_top, ping_host_begin.
  destruct (paused c); [exact Ht|].
  destruct (found (which_ping e)); [exact Ht|].
  apply after_ping_inv; [discriminate | exact Ht].
Qed.

Lemma worker_inv (e : env) (c c' : control) (r : resume) (t t' : task) :
  rtt_only_when_up (hs t) ->
  worker e c r t = Some (t', c') ->
  rtt_only_when_up (hs t').
Proof.
  intros Ht. unfold worker.
  destruct (at_pc t) as [ | | | d w | ex0] eqn:Hpc;
    destruct r as [ | | rc out err | | ex]; try discriminate;
    try (destruct w; try discriminate);
    try (destruct ex; try discriminate);
    intros H; inversion H; subst; clear H;
    try exact Ht;
    try (apply loop_top_inv, Ht);
    try (apply after_ping_inv; [discriminate | exact Ht]);
    try (apply after_ping_inv; [apply parse_inv | exact Ht]);
    try (unfold communicate_raised, wait_raised; cbn [is_TimeoutError];
         first [ apply loop_top_inv, Ht
               | apply after_ping_inv;
                 [first [discriminate
                        | intros v E; inversion E; subst; intros G; elim G;
                          reflexivity]
                 | exact Ht] ]).
Qed.

Lemma Forall_replace {A : Type} (P : A -> Prop) (l : list A) (i : nat) (y : A) :
  Forall P l -> P y -> Forall P (replace i y l).
Proof.
  intros H Hy. revert i. induction H as [|a l Ha Hl IH]; intros [|i]; cbn;
    constructor; auto.
Qed.

Lemma resume_task_inv (s : system) (x : nat * env * resume) :
  invariant s -> invariant (resume_task s x).
Proof.
  intros H. destruct x as [[i e] r]. unfold resume_task.
  destruct (nth_error (tasks s) i) as [t|] eqn:Hn; [|exact H].
  destruct (worker e (ctl s) r t) as [[t' c']|] eqn:Hw; [|exact H].
  unfold invariant. cbn [tasks]. apply Forall_replace; [exact H|].
  apply (worker_inv _ _ _ _ _ _ (proj1 (Forall_forall _ _) H t
                                   (nth_error_In _ _ Hn)) Hw).
Qed.

Lemma sleep0_inv (ready : list (nat * env * resume)) (s : system) :
  invariant s -> invariant (sleep0 ready s).
Proof.
  unfold sleep0. revert s. induction ready as [|x ready IH]; intros s H;
    [exact H|]. cbn [fold_left]. apply IH, resume_task_inv, H.
Qed.

Lemma on_key_inv (key : Z) (s : system) :
  invariant s -> invariant (snd (on_key key s)).
Proof.
  intros H. unfold on_key.
  repeat match goal with
         | |- context [if ?b then _ else _] => destruct b
         end; cbn [snd with_ctl]; try exact H.
  unfold invariant, set_event. cbn [tasks].
  apply Forall_forall. intros t Hin. apply in_map_iff in Hin.
  destruct Hin as [t0 [<- Hin]]. rewrite hs_release.
  apply (proj1 (Forall_forall _ _) H t0 Hin).
Qed.

Lemma dashboard_inv (fs : list frame) (s : system) :
  invariant s -> invariant (snd (dashboard fs s)).
Proof.
  revert s. induction fs as [|[g ready | ex] fs IH]; intros s H; cbn [dashboard].
  - exact H.
  - pose proof (on_key_inv (key_of g) s H) as Hk.
    destruct (on_key (key_of g) s) as [[|] s']; cbn [snd] in *.
    + apply IH, sleep0_inv, Hk.
    + exact Hk.
  - exact H.
Qed.

Lemma deliver_inv (e : env) (c c' : control) (t t' : task) :
  rtt_only_when_up (hs t) ->
  deliver e c t = (t', c') ->
  rtt_only_when_up (hs t').
Proof.
  intros Ht. unfold deliver.
  destruct (must_cancel t && negb (done t)).
  - destruct (finished_wait e t) as [r|].
    + destruct (worker e c r t) as [[t1 c1]|] eqn:Hw;
        intros H; inversion H; subst;
        [apply (worker_inv _ _ _ _ _ _ Ht Hw) | exact Ht].
    + destruct (worker e c (Throw CancelledError) t) as [[t1 c1]|] eqn:Hw;
        intros H; inversion H; subst;
        [apply (worker_inv _ _ _ _ _ _ Ht Hw) | exact Ht].
  - intros H; inversion H; subst. exact Ht.
Qed.

Lemma loop_turn_inv (e : env) (ts ts' : list task) (c c' : control) :
  Forall (fun t => rtt_only_when_up (hs t)) ts ->
  loop_turn e c ts = (ts', c') ->
  Forall (fun t => rtt_only_when_up (hs t)) ts'.
Proof.
  intros H. revert c ts' c'.
  induction H as [|t ts Ht Hts IH]; intros c ts' c'; cbn [loop_turn].
  - intros E; inversion E; constructor.
  - destruct (deliver e c t) as [t1 c1] eqn:Hd.
    destruct (loop_turn e c1 ts) as [ts2 c2] eqn:Hl.
    intros E; inversion E; subst. constructor.
    + apply (deliver_inv _ _ _ _ _ Ht Hd).
    + apply (IH _ _ _ Hl).
Qed.

Lemma gather_inv (fuel : nat) (e : env) (s s' : system) :
  invariant s -> gather fuel e s = Some s' -> invariant s'.
Proof.
  revert s. induction fuel as [|fuel IH]; intros s H; cbn [gather];
    destruct (forallb done (tasks s)); try (intros E; inversion E; subst; exact H);
    try discriminate.
  destruct (loop_turn e (ctl s) (tasks s)) as [ts c] eqn:Hl.
  apply IH. apply (loop_turn_inv _ _ _ _ _ H Hl).
Qed.

Lemma hs_cancel (t : task) : hs (cancel t) = hs t.
Proof. unfold cancel. destruct (done t); reflexivity. Qed.

Lemma finally_inv (fuel : nat) (e : env) (s s' : system) :
  invariant s -> finally fuel e s = Some s' -> invariant s'.
Proof.
  intros H. unfold finally. apply gather_inv.
  unfold invariant. cbn [tasks]. apply Forall_forall. intros t Hin.
  apply in_map_iff in Hin. destruct Hin as [t0 [<- Hin]]. rewrite hs_cancel.
  apply (proj1 (Forall_forall _ _) H t0 Hin).
Qed.

Lemma start_inv (hosts : list HostStatus) (pf : bool) (iv : float) :
  Forall rtt_only_when_up hosts -> invariant (start hosts pf iv).
Proof.
  intros H. unfold invariant, start. cbn [tasks].
  apply Forall_forall. intros t Hin. apply in_map_iff in Hin.
  destruct Hin as [h [<- Hin]]. apply (proj1 (Forall_forall _ _) H h Hin).
Qed.

Lemma refresher_inv (hosts : list HostStatus) (pf : bool) (iv : float)
  (fs : list frame) (fuel : nat) (e : env) (x : loop_exit) (s : system) :
  Forall rtt_only_when_up hosts ->
  refresher hosts pf iv fs fuel e = Some (x, s) -> invariant s.
Proof.
  intros H. unfold refresher.
  pose proof (dashboard_inv fs _ (start_inv hosts pf iv H)) as Hd.
  destruct (dashboard fs (start hosts pf iv)) as [x0 s0]. cbn [snd] in Hd.
  destruct x0;
    try (destruct (finally fuel e s0) as [s1|] eqn:Hf; [|discriminate]);
    intros E; inversion E; subst;
    first [exact Hd | apply (finally_inv _ _ _ _ Hd Hf)].
Qed.

(** C2.  In every state the program reaches - after any number of
    dashboard iterations and worker steps, and after the final
    cancellation - every host record has an RTT only if its last result is
    Up; with Down or Unknown the RTT is absent. *)
Theorem last_rtt_only_when_up (host_list : list string) (fs : list frame)
  (fuel : nat) (e : env) (x : loop_exit) (s : system) (h : HostStatus) :
  main host_list fs fuel e = Some (x, s) ->
  In h (hosts s) ->
  (last_rtt h <> None -> last_result h = Some true)
  /\ (last_result h <> Some true -> last_rtt h = None).
Proof.
  intros Hm Hin. unfold main in Hm.
  assert (Hi : invariant s).
  { apply (refresher_inv (map HostStatus_init host_list) false
             DEFAULT_INTERVAL fs fuel e x s); [|exact Hm].
    apply Forall_forall. intros h0 Hh0. apply in_map_iff in Hh0.
    destruct Hh0 as [n [<- _]]. intros Hr. elim Hr. reflexivity. }
  unfold hosts in Hin. apply in_map_iff in Hin. destruct Hin as [t [<- Ht]].
  pose proof (proj1 (Forall_forall _ _) Hi t Ht) as Hinv.
  split; [exact Hinv|].
  intros Hd. destruct (last_rtt (hs t)) eqn:E; [|reflexivity].
  elim Hd. apply Hinv. rewrite E. discriminate.
Qed.

Lemma last_rtt_only_when_up_witness :
  exists s h,
    main ["10.0.0.1"%string]
      [Frame (Key (-1))
         [(O, {| which_ping := Some "/bin/ping"%string; now := 1;
                 wait_for_swallows := false; communicate_done := None |}, Run)];
       Frame (Key (-1))
         [(O, {| which_ping := Some "/bin/ping"%string; now := 2;
                 wait_for_swallows := false; communicate_done := None |}, Spawned)];
       Frame (Key (-1))
         [(O, {| which_ping := Some "/bin/ping"%string; now := 3;
                 wait_for_swallows := false; communicate_done := None |},
            Communicated 0 "64 bytes from 10.0.0.1: time=17.3 ms" "")]]
      1 {| which_ping := Some "/bin/ping"%string; now := 4;
           wait_for_swallows := false; communicate_done := None |}
    = Some (Alive, s)
    /\ In h (hosts s)
    /\ last_rtt h = Some Float64.f17_3
    /\ last_result h = Some true.
Proof.
  eexists. eexists.
  match goal with
  | |- ?A /\ ?B /\ ?C /\ _ =>
      assert (Hm : A) by (vm_compute; reflexivity);
      assert (Hin : B) by (left; reflexivity);
      assert (Hr : C) by reflexivity
  end.
  split; [exact Hm|]. split; [exact Hin|]. split; [exact Hr|].
  refine (proj1 (last_rtt_only_when_up _ _ _ _ _ _ _ Hm Hin) _).
  rewrite Hr. discriminate.
Defined.

(** ** A missing ping executable (C1) *)

(** C1, as stated, fails: with no [ping] executable the script still starts
    its dashboard and its worker, and the first probe is recorded as Down on
    the host record. *)
Lemma ping_unavailable_not_fatal :
  script ["ncurses_multi_ping.py"%string; "10.0.0.1"%string]
    [Frame (Key (-1)) [(O, {| which_ping := None; now := 1;
                              wait_for_swallows := false; communicate_done := None |}, Run)]]
    1 {| which_ping := None; now := 2;
         wait_for_swallows := false; communicate_done := None |}
  = Ran (Some (Alive,
               {| ctl := {| paused := false; val := DEFAULT_INTERVAL;
                            event_is_set := false |};
                  tasks := [ {| hs := {| host := "10.0.0.1";
                                        last_result := Some false;
                                        last_rtt := None;
                                        last_time := Some 1 |};
                                at_pc := AwaitEvent DEFAULT_INTERVAL false;
                                proc := None;
                                must_cancel := false;
                                pings := 1 |} ] |})).
Proof. vm_compute. reflexivity. Qed.

(** C1, amended.  The script exits at start-up only for want of host
    arguments; whether [ping] exists is looked up inside every call of
    [ping_host].  When it does not exist and the flag is not paused, a task
    that runs for the first time or wakes from its wait calls [ping_host],
    which raises, and the worker writes Down, no RTT and the current time
    to the host record and suspends in its next wait: the task goes on. *)
Theorem ping_unavailable_recorded_down :
  (forall argv fs fuel e status,
      script argv fs fuel e = Exit status ->
      (List.length argv < 2)%nat /\ status = 1)
  /\ (forall e c t r,
         found (which_ping e) = false ->
         paused c = false ->
         (at_pc t = Created /\ r = Run)
         \/ (exists d w, at_pc t = AwaitEvent d w /\ r = Throw TimeoutError) ->
         exists t',
           worker e c r t = Some (t', c)
           /\ hs t' = store (false, None) (now e) (hs t)
           /\ pings t' = S (pings t)
           /\ at_pc t' = AwaitEvent (val c) (event_is_set c)
           /\ done t' = false).
Proof.
  split.
  - intros argv fs fuel e status. unfold script.
    destruct (List.length argv <? 2)%nat eqn:E; [|discriminate].
    intros H. inversion H. apply Nat.ltb_lt in E. split; [exact E | reflexivity].
  - intros e c t r Hw Hp [[Hpc ->] | [d [w [Hpc ->]]]].
    + unfold worker. rewrite Hpc, (no_ping_recorded_down _ _ _ Hw Hp).
      eexists. repeat split.
    + rewrite (worker_wait_raised _ _ _ _ _ _ Hpc).
      cbn [wait_raised is_TimeoutError].
      rewrite (no_ping_recorded_down _ _ _ Hw Hp).
      eexists. repeat split.
Qed.

Lemma ping_unavailable_recorded_down_witness :
  exists t',
    worker {| which_ping := None; now := 1;
              wait_for_swallows := false; communicate_done := None |}
      {| paused := false; val := DEFAULT_INTERVAL; event_is_set := false |}
      Run (create_task (HostStatus_init "10.0.0.1"))
    = Some (t', {| paused := false; val := DEFAULT_INTERVAL;
                   event_is_set := false |})
    /\ last_result (hs t') = Some false
    /\ done t' = false.
Proof.
  destruct ping_unavailable_recorded_down as [_ H].
  destruct (H {| which_ping := None; now := 1;
                 wait_for_swallows := false; communicate_done := None |}
              {| paused := false; val := DEFAULT_INTERVAL;
                 event_is_set := false |}
              (create_task (HostStatus_init "10.0.0.1")) Run
              eq_refl eq_refl (or_introl (conj eq_refl eq_refl)))
    as [t' [H1 [H2 [_ [_ H5]]]]].
  exists t'. split; [exact H1|]. split; [rewrite H2; reflexivity | exact H5].
Defined.

(** ** Leaving the dashboard (C8) *)






















(** ** A run of the whole program *)

(** Two hosts at the default interval: the first answers with an RTT of
    5.0 ms, the second runs into the time bound.  After one round the
    dashboard sees Up with 5.0 and Down with no RTT. *)
Example two_hosts_one_round :
  option_map
    (fun r => map (fun h => (host h, last_result h, last_rtt h))
                (hosts (snd r)))
    (main ["10.0.0.1"%string; "10.0.0.2"%string]
       [Frame (Key (-1))
          [(0%nat, {| which_ping := Some "/bin/ping"%string; now := 1;
                      wait_for_swallows := false; communicate_done := None |}, Run);
           (1%nat, {| which_ping := Some "/bin/ping"%string; now := 1;
                      wait_for_swallows := false; communicate_done := None |}, Run)];
        Frame (Key (-1))
          [(0%nat, {| which_ping := Some "/bin/ping"%string; now := 2;
                      wait_for_swallows := false; communicate_done := None |}, Spawned);
           (1%nat, {| which_ping := Some "/bin/ping"%string; now := 2;
                      wait_for_swallows := false; communicate_done := None |}, Spawned)];
        Frame (Key (-1))
          [(0%nat, {| which_ping := Some "/bin/ping"%string; now := 3;
                      wait_for_swallows := false; communicate_done := None |},
             Communicated 0 "64 bytes from 10.0.0.1: icmp_seq=1 ttl=64 time=5.0 ms" "");
           (1%nat, {| which_ping := Some "/bin/ping"%string; now := 3000;
                      wait_for_swallows := false; communicate_done := None |},
             Throw TimeoutError)]]
       1 {| which_ping := Some "/bin/ping"%string; now := 3001;
            wait_for_swallows := false; communicate_done := None |})
  = Some [("10.0.0.1"%string, Some true,
           Some (S754_finite false 5629499534213120 (-50)));
          ("10.0.0.2"%string, Some false, None)].
Proof. vm_compute. reflexivity. Qed.

(** * Further properties of the worker *)

Ltac worker_cases t r :=
  unfold worker;
  let w := fresh "w" in
  let ex := fresh "ex" in
  destruct (at_pc t) as [ | | | ? w | ?] eqn:?;
  destruct r as [ | | ? ? ? | | ex]; try discriminate;
  try (destruct w; try discriminate);
  try (destruct ex; try discriminate).

Lemma worker_settings (e : env) (c c' : control) (r : resume) (t t' : task) :
  worker e c r t = Some (t', c') -> c' = c \/ (r = Woken /\ c' = clear c).
Proof.
  worker_cases t r; intros H; inversion H; subst; clear H; auto.
Qed.

(** A worker never writes the pause flag or the interval; the only change
    it makes to the shared control state is to clear the event, and only
    when it is resumed from [interval_event.wait()]. *)
Theorem worker_control_footprint (e : env) (c c' : control) (r : resume)
  (t t' : task) :
  worker e c r t = Some (t', c') ->
  paused c' = paused c /\ val c' = val c
  /\ (c' = c \/ (r = Woken /\ c' = clear c)).
Proof.
  intros H. destruct (worker_settings _ _ _ _ _ _ H) as [H1 | [H1 H2]].
  - subst. auto.
  - subst. repeat split. right. auto.
Qed.

Lemma worker_control_footprint_witness :
  paused (clear {| paused := true; val := DEFAULT_INTERVAL; event_is_set := true |})
  = true.
Proof.
  apply (worker_control_footprint
           {| which_ping := Some "/bin/ping"%string; now := 5;
              wait_for_swallows := false; communicate_done := None |}
           {| paused := true; val := DEFAULT_INTERVAL; event_is_set := true |}
           _ Woken
           (set_pc (AwaitEvent DEFAULT_INTERVAL true)
              (create_task (HostStatus_init "10.0.0.1"))) _ eq_refl).
Defined.

Lemma pings_after_ping (e : env) (c : control)
  (r : result (bool * option float)) (t : task) :
  pings (after_ping e c r t) = pings t.
Proof.
  unfold after_ping. destruct (try_except_Exception r (Ok (false, None)));
    reflexivity.
Qed.

Lemma pings_loop_top (e : env) (c : control) (t : task) :
  pings (loop_top e c t) = if paused c then pings t else S (pings t).
Proof.
  unfold loop_top, ping_host_begin. destruct (paused c); [reflexivity|].
  destruct (found (which_ping e)); [reflexivity|].
  rewrite pings_after_ping. reflexivity.
Qed.

(** One step of a worker calls [ping_host] at most once, and only with the
    pause flag clear; a step that begins no probe leaves the count as it
    is.  The count never goes down. *)
Theorem ping_only_when_unpaused (e : env) (c c' : control) (r : resume)
  (t t' : task) :
  worker e c r t = Some (t', c') ->
  pings t' = pings t \/ (pings t' = S (pings t) /\ paused c = false).
Proof.
  worker_cases t r; intros H; inversion H; subst; clear H;
    unfold communicate_raised, wait_raised; cbn [is_TimeoutError];
    rewrite ?pings_after_ping, ?pings_loop_top; cbn [paused clear];
    try (left; reflexivity);
    match goal with
    | |- context [paused ?x] => destruct (paused x); [left | right]; auto
    end.
Qed.

Lemma ping_only_when_unpaused_witness :
  exists t',
    worker {| which_ping := Some "/bin/ping"%string; now := 5;
              wait_for_swallows := false; communicate_done := None |}
      {| paused := false; val := DEFAULT_INTERVAL; event_is_set := false |}
      Run (create_task (HostStatus_init "10.0.0.1"))
    = Some (t', {| paused := false; val := DEFAULT_INTERVAL;
                   event_is_set := false |})
    /\ (pings t' = O \/ (pings t' = 1%nat /\ false = false)).
Proof.
  eexists. split; [reflexivity|].
  apply (ping_only_when_unpaused
           {| which_ping := Some "/bin/ping"%string; now := 5;
              wait_for_swallows := false; communicate_done := None |}
           {| paused := false; val := DEFAULT_INTERVAL; event_is_set := false |}
           _ Run (create_task (HostStatus_init "10.0.0.1")) _ eq_refl).
Defined.

(** Pausing does not stop a probe that is already in flight: when its
    [communicate] returns, the same result and time are written to the
    host record whether the pause flag is set or not. *)
Theorem in_flight_probe_ignores_pause (e : env) (c : control) (t : task)
  (rc : Z) (out err : string) :
  at_pc t = AwaitCommunicate ->
  exists h,
    last_result h = Some (contains "time=" out)
    /\ last_time h = Some (now e)
    /\ forall b, exists t',
         worker e (set_paused b c) (Communicated rc out err) t
         = Some (t', set_paused b c)
         /\ hs t' = h.
Proof.
  intros Hpc. destruct (parse_total out) as [rtt [H _]].
  exists (store (contains "time=" out, rtt) (now e) (hs t)).
  split; [reflexivity|]. split; [reflexivity|].
  intros b. rewrite (worker_communicated _ _ _ _ _ _ Hpc), H, after_ping_Ok.
  eexists. split; reflexivity.
Qed.

Lemma in_flight_probe_ignores_pause_witness :
  exists h,
    last_time h = Some 8
    /\ exists t',
         worker {| which_ping := Some "/bin/ping"%string; now := 8;
                   wait_for_swallows := false; communicate_done := None |}
           {| paused := true; val := DEFAULT_INTERVAL; event_is_set := false |}
           (Communicated 0 "time=1.5 ms" "")
           (set_pc AwaitCommunicate (create_task (HostStatus_init "10.0.0.1")))
         = Some (t', {| paused := true; val := DEFAULT_INTERVAL;
                        event_is_set := false |})
         /\ hs t' = h.
Proof.
  destruct (in_flight_probe_ignores_pause
              {| which_ping := Some "/bin/ping"%string; now := 8;
                 wait_for_swallows := false; communicate_done := None |}
              {| paused := false; val := DEFAULT_INTERVAL; event_is_set := false |}
              (set_pc AwaitCommunicate (create_task (HostStatus_init "10.0.0.1")))
              0 "time=1.5 ms" "" eq_refl) as [h [_ [H2 H3]]].
  exists h. split; [exact H2 | exact (H3 true)].
Defined.

(** * What a whole run preserves *)

(** Any relation between the earlier and the later state of a task that
    every worker step, every release by the event and every cancellation
    request respects, relates the tasks [refresher] starts to the tasks it
    ends with, position by position. *)
Section Run.

Variable R : task -> task -> Prop.
Hypothesis R_refl : forall t, R t t.
Hypothesis R_trans : forall t1 t2 t3, R t1 t2 -> R t2 t3 -> R t1 t3.
Hypothesis R_worker :
  forall e c r t t' c', worker e c r t = Some (t', c') -> R t t'.
Hypothesis R_release : forall t, R t (release t).
Hypothesis R_cancel : forall t, R t (cancel t).
Hypothesis R_uncancel : forall t, R t (uncancel t).

Lemma Forall2_R_refl (l : list task) : Forall2 R l l.
Proof. induction l; constructor; auto. Qed.

Lemma Forall2_R_trans (l1 l2 l3 : list task) :
  Forall2 R l1 l2 -> Forall2 R l2 l3 -> Forall2 R l1 l3.
Proof.
  intros H. revert l3. induction H as [|a b l1 l2 Hab H IH]; intros l3 H3;
    inversion H3; subst; constructor; eauto.
Qed.

Lemma Forall2_R_map (f : task -> task) (l : list task) :
  (forall t, R t (f t)) -> Forall2 R l (map f l).
Proof. intros Hf. induction l; cbn; constructor; auto. Qed.

Lemma Forall2_R_replace (l : list task) (i : nat) (t t' : task) :
  nth_error l i = Some t -> R t t' -> Forall2 R l (replace i t' l).
Proof.
  revert i. induction l as [|a l IH]; intros [|i] Hn Hr; cbn in *;
    try discriminate.
  - inversion Hn; subst. constructor; [exact Hr | apply Forall2_R_refl].
  - constructor; [apply R_refl | apply (IH i Hn Hr)].
Qed.

Lemma resume_task_R (s : system) (x : nat * env * resume) :
  Forall2 R (tasks s) (tasks (resume_task s x)).
Proof.
  destruct x as [[i e] r]. unfold resume_task.
  destruct (nth_error (tasks s) i) as [t|] eqn:Hn; [|apply Forall2_R_refl].
  destruct (worker e (ctl s) r t) as [[t' c']|] eqn:Hw; [|apply Forall2_R_refl].
  cbn [tasks]. apply (Forall2_R_replace _ _ _ _ Hn (R_worker _ _ _ _ _ _ Hw)).
Qed.

Lemma sleep0_R (ready : list (nat * env * resume)) (s : system) :
  Forall2 R (tasks s) (tasks (sleep0 ready s)).
Proof.
  unfold sleep0. revert s. induction ready as [|x ready IH]; intros s;
    cbn [fold_left]; [apply Forall2_R_refl|].
  apply (Forall2_R_trans _ _ _ (resume_task_R s x) (IH _)).
Qed.

Lemma on_key_R (key : Z) (s : system) :
  Forall2 R (tasks s) (tasks (snd (on_key key s))).
Proof.
  unfold on_key.
  repeat match goal with
         | |- context [if ?b then _ else _] => destruct b
         end; cbn [snd with_ctl set_event tasks];
    first [apply Forall2_R_refl | apply Forall2_R_map, R_release].
Qed.

Lemma dashboard_R (fs : list frame) (s : system) :
  Forall2 R (tasks s) (tasks (snd (dashboard fs s))).
Proof.
  revert s. induction fs as [|[g ready | ex] fs IH]; intros s; cbn [dashboard];
    try apply Forall2_R_refl.
  pose proof (on_key_R (key_of g) s) as Hk.
  destruct (on_key (key_of g) s) as [[|] s']; cbn [snd] in *; [|exact Hk].
  apply (Forall2_R_trans _ _ _ Hk).
  apply (Forall2_R_trans _ _ _ (sleep0_R ready s') (IH _)).
Qed.

Lemma deliver_R (e : env) (c : control) (t : task) :
  R t (fst (deliver e c t)).
Proof.
  unfold deliver. destruct (must_cancel t && negb (done t)); [|apply R_refl].
  destruct (finished_wait e t) as [r|].
  - destruct (worker e c r t) as [[t' c']|] eqn:Hw; [|apply R_refl].
    apply (R_trans _ _ _ (R_worker _ _ _ _ _ _ Hw) (R_uncancel t')).
  - destruct (worker e c (Throw CancelledError) t) as [[t' c']|] eqn:Hw;
      [apply (R_worker _ _ _ _ _ _ Hw) | apply R_refl].
Qed.

Lemma loop_turn_R (e : env) (c : control) (ts : list task) :
  Forall2 R ts (fst (loop_turn e c ts)).
Proof.
  revert c. induction ts as [|t ts IH]; intros c; cbn [loop_turn];
    [constructor|].
  pose proof (deliver_R e c t) as Hd.
  destruct (deliver e c t) as [t1 c1]. specialize (IH c1).
  destruct (loop_turn e c1 ts) as [ts2 c2]. constructor; assumption.
Qed.

Lemma gather_R (fuel : nat) (e : env) (s s' : system) :
  gather fuel e s = Some s' -> Forall2 R (tasks s) (tasks s').
Proof.
  revert s. induction fuel as [|fuel IH]; intros s; cbn [gather];
    destruct (forallb done (tasks s));
    try (intros E; inversion E; subst; apply Forall2_R_refl);
    try discriminate.
  pose proof (loop_turn_R e (ctl s) (tasks s)) as Hl.
  destruct (loop_turn e (ctl s) (tasks s)) as [ts c]. intros E.
  apply (Forall2_R_trans _ _ _ Hl (IH _ E)).
Qed.

Lemma finally_R (fuel : nat) (e : env) (s s' : system) :
  finally fuel e s = Some s' -> Forall2 R (tasks s) (tasks s').
Proof.
  unfold finally. intros E.
  apply (Forall2_R_trans _ _ _ (Forall2_R_map cancel (tasks s) R_cancel)).
  apply (gather_R _ _ _ _ E).
Qed.

Lemma refresher_R (hosts : list HostStatus) (pf : bool) (iv : float)
  (fs : list frame) (fuel : nat) (e : env) (x : loop_exit) (s : system) :
  refresher hosts pf iv fs fuel e = Some (x, s) ->
  Forall2 R (map create_task hosts) (tasks s).
Proof.
  unfold refresher.
  pose proof (dashboard_R fs (start hosts pf iv)) as Hd.
  destruct (dashboard fs (start hosts pf iv)) as [x0 s0]. cbn [snd] in Hd.
  change (tasks (start hosts pf iv)) with (map create_task hosts) in Hd.
  destruct x0;
    try (destruct (finally fuel e s0) as [s1|] eqn:Hf; [|discriminate]);
    intros E; inversion E; subst;
    first [exact Hd | apply (Forall2_R_trans _ _ _ Hd (finally_R _ _ _ _ Hf))].
Qed.

End Run.

Lemma host_after_ping (e : env) (c : control)
  (r : result (bool * option float)) (t : task) :
  host (hs (after_ping e c r t)) = host (hs t).
Proof.
  unfold after_ping. destruct (try_except_Exception r (Ok (false, None)));
    reflexivity.
Qed.

Lemma host_loop_top (e : env) (c : control) (t : task) :
  host (hs (loop_top e c t)) = host (hs t).
Proof.
  unfold loop_top, ping_host_begin. destruct (paused c); [reflexivity|].
  destruct (found (which_ping e)); [reflexivity|].
  rewrite host_after_ping. reflexivity.
Qed.

Lemma host_worker (e : env) (c c' : control) (r : resume) (t t' : task) :
  worker e c r t = Some (t', c') -> host (hs t) = host (hs t').
Proof.
  worker_cases t r; intros H; inversion H; subst; clear H;
    unfold communicate_raised, wait_raised; cbn [is_TimeoutError];
    rewrite ?host_after_ping, ?host_loop_top; reflexivity.
Qed.

(** The rows of the dashboard are the command-line hosts, in their order,
    in every state the program reaches: no step renames, drops, adds or
    reorders a host. *)
Theorem host_names_fixed (host_list : list string) (fs : list frame)
  (fuel : nat) (e : env) (x : loop_exit) (s : system) :
  main host_list fs fuel e = Some (x, s) ->
  map host (hosts s) = host_list.
Proof.
  intros Hm. unfold main in Hm.
  pose proof (refresher_R (fun t t' => host (hs t) = host (hs t'))
                (fun _ => eq_refl)
                (fun _ _ _ H1 H2 => eq_trans H1 H2)
                (fun e0 c r t t' c' => host_worker e0 c c' r t t')
                (fun t => eq_sym (f_equal host (hs_release t)))
                (fun t => eq_sym (f_equal host (hs_cancel t)))
                (fun _ => eq_refl)
                _ _ _ _ _ _ _ _ Hm) as H.
  unfold hosts. rewrite map_map.
  remember (tasks s) as ts eqn:Ets. clear Ets Hm.
  revert ts H. induction host_list as [|n l IH]; intros ts H; cbn in H;
    inversion H; subst; cbn; [reflexivity|].
  match goal with Hh : _ = host (hs _) |- _ => rewrite <- Hh end.
  cbn. f_equal. apply IH. assumption.
Qed.

Lemma host_names_fixed_witness :
  exists s,
    main ["10.0.0.1"%string; "10.0.0.2"%string]
      [Frame (Key (ord "u"))
         [(1%nat, {| which_ping := None; now := 1;
                     wait_for_swallows := false; communicate_done := None |}, Run)];
       Frame (Key (ord "q")) []]
      1 {| which_ping := None; now := 2;
           wait_for_swallows := false; communicate_done := None |}
    = Some (Quit, s)
    /\ map host (hosts s) = ["10.0.0.1"%string; "10.0.0.2"%string].
Proof.
  eexists.
  match goal with
  | |- ?A /\ _ => assert (Hm : A) by (vm_compute; reflexivity)
  end.
  split; [exact Hm|].
  apply (host_names_fixed _ _ _ _ _ _ Hm).
Defined.

(** * Keys *)

(** A key code other than the eight bound ones - the -1 of "no key"
    included - changes nothing and keeps the loop going. *)
Theorem unbound_key_ignored (key : Z) (s : system) :
  ~ In key bound_keys -> on_key key s = (Continue, s).
Proof.
  intros H. unfold on_key.
  repeat match goal with
         | |- context [?k =? ?v] =>
             destruct (Z.eqb_spec k v) as [E|_];
             [try (exfalso; apply H; rewrite E; cbn; tauto)|]
         end; reflexivity.
Qed.

Lemma unbound_key_ignored_witness :
  on_key (ord "x") (start [HostStatus_init "10.0.0.1"] false DEFAULT_INTERVAL)
  = (Continue, start [HostStatus_init "10.0.0.1"] false DEFAULT_INTERVAL).
Proof.
  apply unbound_key_ignored. unfold bound_keys. cbn.
  intros H. repeat (destruct H as [H|H]; [discriminate H|]). exact H.
Defined.

(** The loop is left by [q] and [Q] and by no other key code, and leaving
    changes nothing in the state. *)
Theorem only_q_quits (key : Z) (s : system) :
  (fst (on_key key s) = Break <-> key = ord "q" \/ key = ord "Q")
  /\ (fst (on_key key s) = Break -> snd (on_key key s) = s).
Proof.
  unfold on_key.
  destruct (Z.eqb_spec key (-1)) as [E|_].
  { subst. split; [split|]; cbn; [discriminate | intros [H|H]; discriminate H
                                  | discriminate]. }
  destruct (Z.eqb_spec key (ord "q")) as [E|Nq]; cbn [orb].
  { split; [split|]; auto. }
  destruct (Z.eqb_spec key (ord "Q")) as [E|NQ].
  { split; [split|]; auto. }
  assert (G : forall x : flow * system,
             fst x = Continue ->
             (fst x = Break <-> key = ord "q" \/ key = ord "Q")
             /\ (fst x = Break -> snd x = s)).
  { intros x Hx. rewrite Hx. split; [split|]; try discriminate.
    intros [H|H]; contradiction. }
  repeat match goal with
         | |- context [if ?b then _ else _] => destruct b
         end; apply G; reflexivity.
Qed.

(** Pressing the pause key twice gives back the state it started from. *)
Theorem pause_twice (s : system) :
  snd (on_key (ord "p") (snd (on_key (ord "p") s))) = s
  /\ snd (on_key (ord "P") (snd (on_key (ord "P") s))) = s.
Proof.
  destruct s as [[p v ev] ts].
  split; cbn; unfold with_ctl, set_paused; cbn; rewrite negb_involutive;
    reflexivity.
Qed.

Lemma at_most_released_refl (t : task) : at_most_released t t.
Proof. unfold at_most_released. auto 6. Qed.

Lemma at_most_released_release (t : task) : at_most_released t (release t).
Proof.
  unfold at_most_released, release.
  destruct (at_pc t) eqn:E; cbn; rewrite ?E; repeat split; auto.
  right. eauto.
Qed.

(** No key writes a host record, starts or ends a probe or requests a
    cancellation, and no key changes the timeout a task is already waiting
    with: an interval change reaches a task only at its next wait. *)
Theorem keys_leave_tasks (key : Z) (s : system) :
  Forall2 at_most_released (tasks s) (tasks (snd (on_key key s))).
Proof.
  assert (Hr : forall l : list task, Forall2 at_most_released l l).
  { induction l; constructor; auto using at_most_released_refl. }
  unfold on_key.
  repeat match goal with
         | |- context [if ?b then _ else _] => destruct b
         end; cbn [snd with_ctl set_event tasks]; try apply Hr.
  induction (tasks s); cbn; constructor;
    auto using at_most_released_release.
Qed.

Lemma val_presses_plus (n : nat) (s : system) :
  val (ctl (presses n (ord "+") s)) = Nat.iter n decrease (val (ctl s)).
Proof.
  revert s. induction n as [|n IH]; intros s; [reflexivity|].
  cbn [presses]. rewrite IH, on_key_plus, Nat.iter_succ_r. reflexivity.
Qed.

(** From the default interval the floor is reached by the tenth [+] and by
    none before it; from then on the interval is exactly 0.2. *)
Theorem floor_after_ten (n : nat) (hosts : list HostStatus) :
  let v := val (ctl (presses n (ord "+") (start hosts false DEFAULT_INTERVAL))) in
  ((10 <= n)%nat -> v = Float64.f0_2)
  /\ ((n < 10)%nat -> Float64.ltb Float64.f0_2 v = true).
Proof.
  cbv zeta. rewrite val_presses_plus. cbn [start ctl val]. split; intros H.
  - replace n with ((n - 10) + 10)%nat by lia.
    rewrite Nat.iter_add.
    replace (Nat.iter 10 decrease DEFAULT_INTERVAL) with Float64.f0_2
      by (vm_compute; reflexivity).
    induction (n - 10)%nat as [|k IH]; [reflexivity|].
    rewrite Nat.iter_succ, IH. vm_compute. reflexivity.
  - do 10 (destruct n as [|n]; [vm_compute; reflexivity|]). lia.
Qed.

Lemma floor_after_ten_witness :
  val (ctl (presses 12 (ord "+")
              (start [HostStatus_init "10.0.0.1"] false DEFAULT_INTERVAL)))
  = Float64.f0_2.
Proof.
  apply (floor_after_ten 12 [HostStatus_init "10.0.0.1"]). lia.
Defined.

Lemma only_q_quits_witness :
  on_key (ord "Q") (start [HostStatus_init "10.0.0.1"] true DEFAULT_INTERVAL)
  = (Break, start [HostStatus_init "10.0.0.1"] true DEFAULT_INTERVAL).
Proof.
  destruct (only_q_quits (ord "Q")
              (start [HostStatus_init "10.0.0.1"] true DEFAULT_INTERVAL))
    as [[_ H1] H2].
  specialize (H1 (or_intror eq_refl)). specialize (H2 H1).
  destruct (on_key (ord "Q")
              (start [HostStatus_init "10.0.0.1"] true DEFAULT_INTERVAL))
    as [f s']. cbn in H1, H2. rewrite H1, H2. reflexivity.
Defined.

(** * The update signal *)

Lemma tasks_after_update (s : system) (i : nat) (t : task) :
  nth_error (tasks s) i = Some t ->
  nth_error (tasks (snd (on_key (ord "u") s))) i = Some (release t).
Proof.
  intros H. rewrite on_key_update. cbn [snd set_event tasks].
  apply (map_nth_error release i (tasks s) H).
Qed.

(** The update key releases every task that is waiting, and the release
    survives the [clear()] of whichever task runs first: after one task has
    consumed the event, another task that was waiting is still released
    and, resumed, goes to the top of its loop as well. *)
Theorem update_reaches_every_waiter (s : system) (i j : nat) (ti tj : task)
  (di dj : float) (wi wj : bool) (e e' : env) :
  i <> j ->
  nth_error (tasks s) i = Some ti -> at_pc ti = AwaitEvent di wi ->
  nth_error (tasks s) j = Some tj -> at_pc tj = AwaitEvent dj wj ->
  let s2 := resume_task (snd (on_key (ord "u") s)) (i, e, Woken) in
  event_is_set (ctl s2) = false
  /\ nth_error (tasks s2) j = Some (set_pc (AwaitEvent dj true) tj)
  /\ worker e' (ctl s2) Woken (set_pc (AwaitEvent dj true) tj)
     = Some (loop_top e' (ctl s2) (set_pc (AwaitEvent dj true) tj), ctl s2).
Proof.
  intros Hij Hi Hpi Hj Hpj s2.
  pose proof (tasks_after_update s i ti Hi) as Hi1.
  pose proof (tasks_after_update s j tj Hj) as Hj1.
  unfold release in Hi1, Hj1. rewrite Hpi in Hi1. rewrite Hpj in Hj1.
  assert (E : s2 = {| ctl := clear (ctl (snd (on_key (ord "u") s)));
                      tasks := replace i
                                 (loop_top e (clear (ctl (snd (on_key (ord "u") s))))
                                    (set_pc (AwaitEvent di true) ti))
                                 (tasks (snd (on_key (ord "u") s))) |}).
  { subst s2. unfold resume_task. rewrite Hi1.
    rewrite (worker_woken _ _ di) by reflexivity. reflexivity. }
  rewrite E. cbn [ctl tasks]. split; [reflexivity|]. split.
  - rewrite nth_error_replace_other by exact Hij. exact Hj1.
  - rewrite (worker_woken _ _ dj) by reflexivity. reflexivity.
Qed.

Lemma update_reaches_every_waiter_witness :
  let w := set_pc (AwaitEvent DEFAULT_INTERVAL false)
             (create_task (HostStatus_init "h")) in
  let s := {| ctl := {| paused := false; val := DEFAULT_INTERVAL;
                        event_is_set := false |};
              tasks := [w; w] |} in
  nth_error
    (tasks (resume_task (snd (on_key (ord "u") s))
              (O, {| which_ping := None; now := 1;
                     wait_for_swallows := false; communicate_done := None |}, Woken))) 1
  = Some (set_pc (AwaitEvent DEFAULT_INTERVAL true) w).
Proof.
  intros w s.
  destruct (update_reaches_every_waiter s 0 1 w w DEFAULT_INTERVAL
              DEFAULT_INTERVAL false false
              {| which_ping := None; now := 1;
                 wait_for_swallows := false; communicate_done := None |}
              {| which_ping := None; now := 2;
                 wait_for_swallows := false; communicate_done := None |}
              (fun H : O = 1%nat => O_S _ H) eq_refl eq_refl eq_refl eq_refl)
    as [_ [H _]].
  exact H.
Defined.

(** A task whose probe is in flight when the update key is pressed is not
    released by it: once another task has consumed the event, the busy
    task finishes its probe and then waits out its whole interval - it
    cannot be resumed by the event. *)
Theorem update_missed_while_probing (s : system) (i j : nat) (ti tj : task)
  (di : float) (wi : bool) (e e' e'' : env) (rc : Z) (out err : string) :
  i <> j ->
  nth_error (tasks s) i = Some ti -> at_pc ti = AwaitEvent di wi ->
  nth_error (tasks s) j = Some tj -> at_pc tj = AwaitCommunicate ->
  let s2 := resume_task (snd (on_key (ord "u") s)) (i, e, Woken) in
  let s3 := resume_task s2 (j, e', Communicated rc out err) in
  exists tj',
    nth_error (tasks s3) j = Some tj'
    /\ at_pc tj' = AwaitEvent (val (ctl s)) false
    /\ last_time (hs tj') = Some (now e')
    /\ worker e'' (ctl s3) Woken tj' = None.
Proof.
  intros Hij Hi Hpi Hj Hpj s2 s3.
  pose proof (tasks_after_update s i ti Hi) as Hi1.
  pose proof (tasks_after_update s j tj Hj) as Hj1.
  unfold release in Hi1, Hj1. rewrite Hpi in Hi1. rewrite Hpj in Hj1.
  assert (E2 : ctl s2 = clear (ctl (snd (on_key (ord "u") s)))
               /\ nth_error (tasks s2) j = Some tj).
  { subst s2. unfold resume_task. rewrite Hi1.
    rewrite (worker_woken _ _ di) by reflexivity. cbn [ctl tasks].
    split; [reflexivity|].
    rewrite nth_error_replace_other by exact Hij. exact Hj1. }
  destruct E2 as [Ec Ej].
  destruct (parse_total out) as [rtt [Hp _]].
  assert (E3 : s3 = {| ctl := ctl s2;
                       tasks := replace j
                                  (after_ping e' (ctl s2) (Ok (contains "time=" out, rtt))
                                     (set_proc (Exited rc) tj))
                                  (tasks s2) |}).
  { subst s3. unfold resume_task. rewrite Ej.
    rewrite (worker_communicated _ _ _ _ _ _ Hpj), Hp. reflexivity. }
  rewrite E3. cbn [ctl tasks]. eexists.
  split; [apply (nth_error_replace _ _ _ _ Ej)|].
  rewrite after_ping_Ok, Ec. rewrite on_key_update.
  repeat split.
Qed.

Lemma update_missed_while_probing_witness :
  let w := set_pc (AwaitEvent DEFAULT_INTERVAL false)
             (create_task (HostStatus_init "a")) in
  let b := set_pc AwaitCommunicate (create_task (HostStatus_init "b")) in
  let s := {| ctl := {| paused := false; val := DEFAULT_INTERVAL;
                        event_is_set := false |};
              tasks := [w; b] |} in
  exists tj',
    nth_error
      (tasks (resume_task
                (resume_task (snd (on_key (ord "u") s))
                   (O, {| which_ping := None; now := 1;
                          wait_for_swallows := false; communicate_done := None |}, Woken))
                (1%nat, {| which_ping := None; now := 2;
                           wait_for_swallows := false; communicate_done := None |},
                  Communicated 0 "time=1.0 ms" ""))) 1
    = Some tj'
    /\ at_pc tj' = AwaitEvent DEFAULT_INTERVAL false.
Proof.
  intros w b s.
  destruct (update_missed_while_probing s 0 1 w b DEFAULT_INTERVAL false
              {| which_ping := None; now := 1;
                 wait_for_swallows := false; communicate_done := None |}
              {| which_ping := None; now := 2;
                 wait_for_swallows := false; communicate_done := None |}
              {| which_ping := None; now := 3;
                 wait_for_swallows := false; communicate_done := None |}
              0 "time=1.0 ms" ""
              (fun H : O = 1%nat => O_S _ H) eq_refl eq_refl eq_refl eq_refl)
    as [tj' [H1 [H2 _]]].
  exists tj'. split; [exact H1 | exact H2].
Defined.

(** * More on the output parser *)

(** Only the 20 characters after the first marker are looked at: two
    outputs that agree up to there get the same verdict and the same RTT,
    so an RTT token is cut after 20 characters. *)
Theorem parse_window (pre rest rest' : string) :
  contains "time=" pre = false ->
  take 20 rest = take 20 rest' ->
  ping_host_parse (pre ++ "time=" ++ rest)
  = ping_host_parse (pre ++ "time=" ++ rest').
Proof.
  intros H Ht. unfold ping_host_parse.
  rewrite !(contains_marker_app _ _ H).
  destruct (rest_after_marker pre rest H) as [Hi Hs].
  destruct (rest_after_marker pre rest' H) as [Hi' Hs'].
  rewrite Hi, Hi'. cbn [bind]. rewrite Hs, Hs', Ht. reflexivity.
Qed.

Lemma parse_window_witness :
  ping_host_parse ("ttl=64 " ++ "time=" ++ "0.0123456789012345678901 ms")
  = ping_host_parse ("ttl=64 " ++ "time=" ++ "0.012345678901234567899999").
Proof. apply parse_window; reflexivity. Defined.

Lemma split_from_blank (s : string) :
  all_chars isspace s = true -> split_from EmptyString s = [].
Proof.
  induction s as [|c s IH]; cbn; [reflexivity|].
  intros H. apply andb_true_iff in H. destruct H as [Hc Hs].
  rewrite Hc. apply IH, Hs.
Qed.

(** A marker followed, within its 20 characters, by nothing but white
    space - or by the end of the output - gives Up with no RTT. *)
Theorem blank_after_marker (pre rest : string) :
  contains "time=" pre = false ->
  all_chars isspace (take 20 rest) = true ->
  ping_host_parse (pre ++ "time=" ++ rest) = Ok (true, None).
Proof.
  intros H Hb. unfold ping_host_parse.
  rewrite (contains_marker_app _ _ H).
  destruct (rest_after_marker pre rest H) as [Hi Hs].
  rewrite Hi. cbn [bind]. rewrite Hs. unfold split.
  rewrite (split_from_blank _ Hb). reflexivity.
Qed.

Lemma blank_after_marker_witness :
  ping_host_parse ("rtt " ++ "time=" ++ "") = Ok (true, None).
Proof. apply blank_after_marker; reflexivity. Defined.

Lemma float_of_str_raises (s : string) (ex : exn) :
  float_of_str s = Raise ex -> ex = ValueError.
Proof.
  unfold float_of_str.
  repeat match goal with
         | |- context [match ?x with _ => _ end] => destruct x
         end; intros H; inversion H; reflexivity.
Qed.

Lemma append_assoc (a b c : string) :
  ((a ++ b) ++ c = a ++ (b ++ c))%string.
Proof. induction a as [|x a IH]; cbn; [reflexivity | rewrite IH; reflexivity]. Qed.

Lemma split_from_token (acc tok r : string) :
  all_chars (fun c => negb (isspace c)) tok = true ->
  split_from acc (tok ++ r) = split_from (acc ++ tok) r.
Proof.
  revert acc. induction tok as [|c tok IH]; intros acc H; cbn in *.
  - replace (acc ++ "")%string with acc; [reflexivity|].
    clear. induction acc as [|x acc IH]; cbn; [reflexivity | rewrite <- IH; reflexivity].
  - apply andb_true_iff in H. destruct H as [Hc Ht].
    apply negb_true_iff in Hc. rewrite Hc, (IH _ Ht), append_assoc.
    reflexivity.
Qed.

Lemma take_token (tok : string) (c : ascii) (post : string) (n : nat) :
  (String.length tok < n)%nat ->
  take n (tok ++ String c post)
  = (tok ++ String c (take (n - S (String.length tok)) post))%string.
Proof.
  revert n. induction tok as [|x tok IH]; intros [|n] H; cbn in *; try lia.
  - rewrite Nat.sub_0_r. reflexivity.
  - rewrite IH by lia. reflexivity.
Qed.

(** The RTT is the first white-space-delimited token after the marker,
    read by [float] without any check of its range: a token of fewer than
    20 characters that [float] accepts is the RTT, whatever its value, and
    one it rejects leaves the RTT absent. *)
Theorem rtt_is_first_token (pre tok post : string) (c : ascii) :
  contains "time=" pre = false ->
  tok <> EmptyString ->
  all_chars (fun c => negb (isspace c)) tok = true ->
  (String.length tok < 20)%nat ->
  isspace c = true ->
  ping_host_parse (pre ++ "time=" ++ tok ++ String c post)
  = match float_of_str tok with
    | Ok rtt => Ok (true, Some rtt)
    | Raise _ => Ok (true, None)
    end.
Proof.
  intros H Hne Htok Hlen Hc.
  assert (Hs : exists l, split (take 20 (tok ++ String c post)) = tok :: l).
  { rewrite (take_token _ _ _ _ Hlen). unfold split.
    rewrite (split_from_token _ _ _ Htok). cbn [String.append split_from].
    rewrite Hc. destruct tok; [congruence|]. cbn. eauto. }
  destruct Hs as [l Hl]. rewrite (parse_at_marker _ _ _ _ H Hl).
  destruct (float_of_str tok) as [x | ex] eqn:E; cbn; [reflexivity|].
  rewrite (float_of_str_raises _ _ E). reflexivity.
Qed.

Lemma rtt_is_first_token_witness :
  ping_host_parse ("icmp_seq=1 " ++ "time=" ++ "-inf" ++ String " " "ms")
  = Ok (true, Some (S754_infinity true)).
Proof.
  rewrite (rtt_is_first_token "icmp_seq=1 " "-inf" "ms" " ");
    [reflexivity | reflexivity | discriminate | reflexivity
    | cbn; lia | reflexivity].
Defined.

(** * The table *)



Lemma length_app_string (a b : string) :
  String.length (a ++ b) = (String.length a + String.length b)%nat.
Proof. induction a as [|x a IH]; cbn; [reflexivity | rewrite IH; reflexivity]. Qed.

Lemma length_spaces (n : nat) : String.length (spaces n) = n.
Proof. induction n as [|n IH]; cbn; [reflexivity | rewrite IH; reflexivity]. Qed.

Lemma length_ljust (n : nat) (s : string) :
  String.length (ljust n s) = Nat.max n (String.length s).
Proof. unfold ljust. rewrite length_app_string, length_spaces. lia. Qed.

Lemma length_rjust (n : nat) (s : string) :
  String.length (rjust n s) = Nat.max n (String.length s).
Proof. unfold rjust. rewrite length_app_string, length_spaces. lia. Qed.

Lemma length_take (n : nat) (s : string) :
  String.length (take n s) = Nat.min n (String.length s).
Proof.
  revert s. induction n as [|n IH]; intros [|c s]; cbn; try reflexivity.
  rewrite IH. reflexivity.
Qed.

Lemma length_strftime (t : datetime) : String.length (strftime_HMS t) = 8%nat.
Proof. reflexivity. Qed.

(** Every row is four writes at columns 0, 31, 40 and 49.  The host name is
    cut or padded to exactly 30 characters, the status takes exactly 8 and
    the time exactly 20, so these fields never run into the next one; the
    RTT is at least 8 wide and wider when the number needs it.  The column
    titles start at the same four columns. *)
Theorem row_layout (y : Z) (h : HostStatus) :
  exists t1 t2 t3 t4 p,
    render_row y h = [addstr y 0 t1 Normal; addstr y 31 t2 (Bold_pair p);
                      addstr y 40 t3 Normal; addstr y 49 t4 Normal]
    /\ String.length t1 = 30%nat
    /\ String.length t2 = 8%nat
    /\ String.length t3 = Nat.max 8 (String.length (rtt_str h))
    /\ String.length t4 = 20%nat
    /\ slice column_titles 0 4 = "Host"%string
    /\ slice column_titles 31 37 = "Status"%string
    /\ slice column_titles 40 47 = "RTT(ms)"%string
    /\ slice column_titles 49 63 = "Letztes Update"%string.
Proof.
  do 5 eexists. split; [reflexivity|].
  split; [rewrite length_ljust, length_take; lia|].
  split; [rewrite length_ljust; unfold status_label;
          destruct (last_result h) as [[|]|]; reflexivity|].
  split; [apply length_rjust|].
  split; [|repeat split].
  rewrite length_rjust. unfold ts_str.
  destruct (last_result h); [destruct (last_time h)|]; reflexivity.
Qed.

Lemma stamped_after_ping (e : env) (c : control)
  (r : result (bool * option float)) (t : task) :
  stamped (hs t) -> stamped (hs (after_ping e c r t)).
Proof.
  intros H. unfold after_ping.
  destruct (try_except_Exception r (Ok (false, None))); [|exact H].
  split; discriminate.
Qed.

Lemma stamped_loop_top (e : env) (c : control) (t : task) :
  stamped (hs t) -> stamped (hs (loop_top e c t)).
Proof.
  intros H. unfold loop_top, ping_host_begin.
  destruct (paused c); [exact H|].
  destruct (found (which_ping e)); [exact H|].
  apply stamped_after_ping, H.
Qed.

Lemma stamped_worker (e : env) (c : control) (r : resume) (t t' : task)
  (c' : control) :
  worker e c r t = Some (t', c') -> stamped (hs t) -> stamped (hs t').
Proof.
  worker_cases t r; intros H; inversion H; subst; clear H; intros Hs;
    unfold communicate_raised, wait_raised; cbn [is_TimeoutError];
    first [ exact Hs
          | apply stamped_loop_top; exact Hs
          | apply stamped_after_ping; exact Hs ].
Qed.

(** In every state the program reaches, a host record has a result exactly
    when it has a time, because both are written together.  So a row
    shows the placeholder in its time column exactly when it is labelled
    UNKNOWN: an UP or DOWN row always shows a time. *)
Theorem time_shown_iff_known (host_list : list string) (fs : list frame)
  (fuel : nat) (e : env) (x : loop_exit) (s : system) (h : HostStatus) :
  main host_list fs fuel e = Some (x, s) ->
  In h (hosts s) ->
  (last_result h = None <-> last_time h = None)
  /\ (ts_str h = "-"%string <-> status_label h = "UNKNOWN"%string).
Proof.
  intros Hm Hin. unfold main in Hm.
  pose proof (refresher_R (fun t t' => stamped (hs t) -> stamped (hs t'))
                (fun _ H => H)
                (fun _ _ _ H1 H2 H => H2 (H1 H))
                stamped_worker
                (fun t H => eq_ind_r stamped H (hs_release t))
                (fun t H => eq_ind_r stamped H (hs_cancel t))
                (fun _ H => H)
                _ _ _ _ _ _ _ _ Hm) as H.
  assert (Hs : stamped h).
  { unfold hosts in Hin. apply in_map_iff in Hin. destruct Hin as [t [<- Ht]].
    remember (tasks s) as ts eqn:Ets. clear Ets Hm.
    remember (map create_task (map HostStatus_init host_list)) as l0 eqn:El.
    assert (H0 : Forall (fun t0 => stamped (hs t0)) l0).
    { subst l0. apply Forall_forall. intros t0 Hin0.
      apply in_map_iff in Hin0. destruct Hin0 as [h0 [<- Hin0]].
      apply in_map_iff in Hin0. destruct Hin0 as [n [<- _]].
      split; reflexivity. }
    clear El. induction H as [|a b l1 l2 Hab H IH]; [contradiction|].
    inversion H0; subst. destruct Ht as [<- | Ht]; auto. }
  split; [exact Hs|].
  unfold ts_str, status_label. destruct Hs as [H1 H2].
  destruct (last_result h) as [[|]|] eqn:Er.
  - destruct (last_time h) as [t|] eqn:Et.
    + split; intros G; [inversion G | discriminate G].
    + specialize (H2 eq_refl). discriminate.
  - destruct (last_time h) as [t|] eqn:Et.
    + split; intros G; [inversion G | discriminate G].
    + specialize (H2 eq_refl). discriminate.
  - split; reflexivity.
Qed.

Lemma time_shown_iff_known_witness :
  exists s h,
    main ["10.0.0.1"%string]
      [Frame (Key (-1))
         [(O, {| which_ping := Some "/bin/ping"%string; now := 1;
                 wait_for_swallows := false; communicate_done := None |}, Run)];
       Frame (Key (-1))
         [(O, {| which_ping := Some "/bin/ping"%string; now := 2;
                 wait_for_swallows := false; communicate_done := None |},
            Throw (OSError 13))]]
      1 {| which_ping := Some "/bin/ping"%string; now := 3;
           wait_for_swallows := false; communicate_done := None |}
    = Some (Alive, s)
    /\ In h (hosts s)
    /\ status_label h = "DOWN"%string
    /\ ts_str h <> "-"%string.
Proof.
  eexists. eexists.
  match goal with
  | |- ?A /\ ?B /\ ?C /\ _ =>
      assert (Hm : A) by (vm_compute; reflexivity);
      assert (Hin : B) by (left; reflexivity);
      assert (Hl : C) by reflexivity
  end.
  split; [exact Hm|]. split; [exact Hin|]. split; [exact Hl|].
  intros Ht.
  apply (proj1 (proj2 (time_shown_iff_known _ _ _ _ _ _ _ Hm Hin))) in Ht.
  rewrite Hl in Ht. discriminate Ht.
Defined.

(** * Control flows one way *)

Lemma settings_resume_task (s : system) (x : nat * env * resume) :
  paused (ctl (resume_task s x)) = paused (ctl s)
  /\ val (ctl (resume_task s x)) = val (ctl s).
Proof.
  destruct x as [[i e] r]. unfold resume_task.
  destruct (nth_error (tasks s) i) as [t|]; [|split; reflexivity].
  destruct (worker e (ctl s) r t) as [[t' c']|] eqn:Hw; [|split; reflexivity].
  destruct (worker_settings _ _ _ _ _ _ Hw) as [H1 | [_ H1]]; subst c';
    split; reflexivity.
Qed.

Lemma settings_sleep0 (ready : list (nat * env * resume)) (s : system) :
  paused (ctl (sleep0 ready s)) = paused (ctl s)
  /\ val (ctl (sleep0 ready s)) = val (ctl s).
Proof.
  unfold sleep0. revert s. induction ready as [|x ready IH]; intros s;
    cbn [fold_left]; [split; reflexivity|].
  destruct (IH (resume_task s x)) as [H1 H2].
  destruct (settings_resume_task s x) as [H3 H4].
  split; congruence.
Qed.

Lemma settings_on_key (key : Z) (s s' : system) :
  paused (ctl s) = paused (ctl s') -> val (ctl s) = val (ctl s') ->
  fst (on_key key s) = fst (on_key key s')
  /\ paused (ctl (snd (on_key key s))) = paused (ctl (snd (on_key key s')))
  /\ val (ctl (snd (on_key key s))) = val (ctl (snd (on_key key s'))).
Proof.
  intros Hp Hv. unfold on_key.
  repeat match goal with
         | |- context [if ?b then _ else _] => destruct b
         end; cbn; rewrite ?Hp, ?Hv; auto.
Qed.

(** What the workers do has no influence on the settings or on when the
    loop ends: the pause flag, the interval and the way the loop is left
    are the same as in the run with the same keys in which no task is ever
    resumed. *)
Theorem settings_depend_on_keys_only (fs : list frame) (s : system) :
  fst (dashboard fs s) = fst (dashboard (keys_only fs) s)
  /\ paused (ctl (snd (dashboard fs s)))
     = paused (ctl (snd (dashboard (keys_only fs) s)))
  /\ val (ctl (snd (dashboard fs s)))
     = val (ctl (snd (dashboard (keys_only fs) s))).
Proof.
  assert (G : forall s s',
             paused (ctl s) = paused (ctl s') -> val (ctl s) = val (ctl s') ->
             fst (dashboard fs s) = fst (dashboard (keys_only fs) s')
             /\ paused (ctl (snd (dashboard fs s)))
                = paused (ctl (snd (dashboard (keys_only fs) s')))
             /\ val (ctl (snd (dashboard fs s)))
                = val (ctl (snd (dashboard (keys_only fs) s')))).
  { induction fs as [|[g ready | ex] fs IH]; intros s1 s2 Hp Hv;
      cbn [keys_only map dashboard]; [auto | | auto].
    destruct (settings_on_key (key_of g) s1 s2 Hp Hv) as [Hf [Hp' Hv']].
    destruct (on_key (key_of g) s1) as [f1 k1].
    destruct (on_key (key_of g) s2) as [f2 k2]. cbn [fst snd] in *. subst f2.
    destruct f1; [|auto].
    apply IH; destruct (settings_sleep0 ready k1) as [H1 H2]; cbn [sleep0 fold_left];
      congruence. }
  apply G; reflexivity.
Qed.
